(** * Two Keras tutorial scripts: a verification development

    The repository holds two straight-line training scripts,

    - [02-keras-2L-diabetes-predict/keras-predictor.py] (module body), and
    - [_homeworks_/homework_04/cardiotocographic-classification.py]
      ([create_cardiotocographic_model], [train_evaluate_save_model],
      [plot_metric_graph], [main]).

    They are embedded as programs of a state-and-exception monad over a
    [world] (command line, working directory, file system, random
    generator, console, matplotlib figure, log of the calls made).  The
    floating-point kernels of numpy, scikit-learn and Keras are not part of
    the repository: they are the fields of the class [Backend].  The parts of
    pandas and scikit-learn whose documented behaviour is index arithmetic
    (reading a table, [iloc], [train_test_split], [OneHotEncoder],
    [argmax]) are written out. *)

From Stdlib Require Import QArith Qcanon Qround Ascii.
From stdpp Require Import base numbers strings list sorting gmap.

Local Open Scope string_scope.
Local Open Scope list_scope.
Local Open Scope nat_scope.

(** ** Exceptions and results *)

Record exn := Exn { exn_class : string; exn_msg : string }.

Inductive result (A : Type) : Type :=
| Ok (a : A)
| Raise (e : exn).
Arguments Ok {A} a.
Arguments Raise {A} e.

Definition result_bind {A B} (r : result A) (k : A → result B) : result B :=
  match r with Ok a => k a | Raise e => Raise e end.

Fixpoint result_mapM {A B} (f : A → result B) (l : list A) : result (list B) :=
  match l with
  | [] => Ok []
  | x :: l' =>
      result_bind (f x) (λ y, result_bind (result_mapM f l') (λ ys, Ok (y :: ys)))
  end.

(** ** Tables *)

(** A table cell as pandas reads it: a number, or [None] for a blank (NaN). *)
Definition cell := option Qc.

(** A [DataFrame]: column names and rows, each row carrying its index label. *)
Record DataFrame (A : Type) := mkFrame {
  columns : list string;
  rows : list (nat * list A)
}.
Arguments mkFrame {A} columns rows.
Arguments columns {A} d.
Arguments rows {A} d.

Definition index {A} (d : DataFrame A) : list nat := fst <$> rows d.
Definition values {A} (d : DataFrame A) : list (list A) := snd <$> rows d.

(** [RangeIndex]: the rows of a freshly read table are labelled 0, 1, ... *)
Definition range_index {A} (recs : list (list A)) : list (nat * list A) :=
  zip (seq 0 (length recs)) recs.

(** A short record is padded with blanks up to the header's width. *)
Definition pad_record (width : nat) (r : list cell) : list cell :=
  r ++ replicate (width - length r) None.

(** [df.dropna()]: keep the rows without a blank. *)
Definition dropna (d : DataFrame cell) : DataFrame Qc :=
  mkFrame (columns d)
    (omap (λ r : nat * list cell,
             pair (fst r) <$> (mapM id (snd r) : option (list Qc))) (rows d)).

(** Position of a column label. *)
Fixpoint column_position (cols : list string) (c : string) : option nat :=
  match cols with
  | [] => None
  | c' :: cols' =>
      if decide (c' = c) then Some 0 else S <$> column_position cols' c
  end.

(** [df.loc[:, cols]]: the named columns, in the order asked for;
    [KeyError] on a name the frame does not have. *)
Definition loc_columns {A} (d : DataFrame A) (cols : list string)
  : result (DataFrame A) :=
  match mapM (column_position (columns d)) cols : option (list nat) with
  | None => Raise (Exn "KeyError" "not in index")
  | Some ps =>
      Ok (mkFrame cols
            ((λ r : nat * list A, (fst r, omap (λ p, snd r !! p) ps)) <$> rows d))
  end.

(** [df.iloc[:, :-1]]: every column but the last. *)
Definition iloc_but_last {A} (d : DataFrame A) : DataFrame A :=
  mkFrame (removelast (columns d))
    ((λ r : nat * list A, (fst r, removelast (snd r))) <$> rows d).

(** [df.iloc[:, -1]]: the last column, as a series (index label, value);
    [IndexError] when there is no column. *)
Definition iloc_last {A} (d : DataFrame A) : result (list (nat * A)) :=
  match columns d with
  | [] => Raise (Exn "IndexError" "single positional indexer is out-of-bounds")
  | _ :: _ =>
      match mapM (λ r : nat * list A, pair (fst r) <$> last (snd r)) (rows d)
            : option (list (nat * A)) with
      | Some s => Ok s
      | None => Raise (Exn "IndexError" "single positional indexer is out-of-bounds")
      end
  end.

(** Positional row selection ([_safe_indexing] of scikit-learn, [take]). *)
Definition take_rows {A} (d : DataFrame A) (positions : list nat) : DataFrame A :=
  mkFrame (columns d) (omap (λ p, rows d !! p) positions).

(** ** One-hot encoding (scikit-learn's [OneHotEncoder], one feature column) *)

(** [numpy.unique]: the distinct values in increasing order. *)
Fixpoint insert_unique (x : Qc) (l : list Qc) : list Qc :=
  match l with
  | [] => [x]
  | y :: l' =>
      if decide (x < y)%Qc then x :: l
      else if decide (x = y) then l
      else y :: insert_unique x l'
  end.

Definition np_unique (l : list Qc) : list Qc := foldr insert_unique [] l.

(** [numpy.searchsorted] (side left) on an increasing array: the number of
    entries below [v]. *)
Fixpoint searchsorted (cats : list Qc) (v : Qc) : nat :=
  match cats with
  | [] => 0
  | c :: cats' => if decide (c < v)%Qc then S (searchsorted cats' v) else 0
  end.

(** The dense [uint8] row with a one in column [code]. *)
Definition one_hot_row (width code : nat) : list nat :=
  (λ j, if decide (j = code) then 1 else 0) <$> seq 0 width.

(** The dense one-hot rows of a column of labels, for given categories. *)
Definition one_hot_encode (cats : list Qc) (y : list Qc) : list (list nat) :=
  (λ v, one_hot_row (length cats) (searchsorted cats v)) <$> y.

(** A binary row with exactly one set bit. *)
Definition one_hot (row : list nat) : Prop :=
  Forall (λ b, b = 0 ∨ b = 1) row ∧ sum_list row = 1.

Record OneHotEncoder := mkEncoder {
  sparse_output : bool;
  dtype : string;
  categories_ : option (list Qc)
}.

Definition encoder_fit (enc : OneHotEncoder) (y : list Qc) : OneHotEncoder :=
  mkEncoder (sparse_output enc) (dtype enc) (Some (np_unique y)).

(** [transform] with the default [handle_unknown='error']. *)
Definition encoder_transform (enc : OneHotEncoder) (y : list Qc)
  : result (list (list nat)) :=
  match categories_ enc with
  | None => Raise (Exn "NotFittedError" "This OneHotEncoder instance is not fitted yet")
  | Some cats =>
      if decide (Forall (λ v, v ∈ cats) y)
      then Ok (one_hot_encode cats y)
      else Raise (Exn "ValueError" "Found unknown categories")
  end.

(** [fit_transform] is [fit] followed by [transform] on the same column. *)
Definition encoder_fit_transform (enc : OneHotEncoder) (y : list Qc)
  : OneHotEncoder * result (list (list nat)) :=
  let enc' := encoder_fit enc y in (enc', encoder_transform enc' y).

(** The column an encoder fitted on [y] gives to label [v], if it has one. *)
Definition column_of (y : list Qc) (v : Qc) : option nat :=
  if decide (v ∈ np_unique y) then Some (searchsorted (np_unique y) v) else None.

(** ** Keras layers and models *)

Record Dense := mkDense {
  units : nat;
  activation : string;
  input_dim : option nat;
  layer_name : string
}.

Record CompileConfig := mkCompile {
  loss_fn : string;
  optimizer : string;
  metrics : list string
}.

(** Two hidden layers of 64 ReLU units, then one output layer. *)
Definition two_hidden_relu64 (out_units : nat) (out_activation : string)
    (ls : list Dense) : Prop :=
  ∃ h1 h2 o, ls = [h1; h2; o]
    ∧ units h1 = 64 ∧ activation h1 = "relu"
    ∧ units h2 = 64 ∧ activation h2 = "relu"
    ∧ units o = out_units ∧ activation o = out_activation.

(** A [Sequential] model object: the layers added so far, the compile
    settings and the trained parameters (of type [W]). *)
Record Sequential (W : Type) := mkSequential {
  model_name : option string;
  layers : list Dense;
  compiled : option CompileConfig;
  trained : option W
}.
Arguments mkSequential {W} model_name layers compiled trained.
Arguments model_name {W} s.
Arguments layers {W} s.
Arguments compiled {W} s.
Arguments trained {W} s.

(** The [History] object returned by [fit]. *)
Record History (S : Type) := mkHistory {
  epoch : list nat;
  history : gmap string (list S)
}.
Arguments mkHistory {S} epoch history.
Arguments epoch {S} h.
Arguments history {S} h.

(** ** The numerical back end

    Everything the scripts delegate to numpy, scikit-learn and Keras that is
    floating-point arithmetic or random. *)
Class Backend := {
  scalar : Type;                       (* an IEEE floating-point number *)
  rng : Type;                          (* state of the process-wide generator *)
  weights : Type;                      (* trained parameters of a network *)
  scaler_state : Type;                 (* attributes fitted by MinMaxScaler *)
  float : Qc → scalar;                 (* a float literal *)
  float_sub : scalar → scalar → scalar;
  float_gt : scalar → scalar → bool;
  float_repr : scalar → string;        (* how print shows a float *)
  float_of_cell : cell → scalar;        (* a table cell as numpy holds it *)
  float_of_uint8 : nat → scalar;
  float16 : scalar → scalar;           (* astype(dtype='float16') *)
  ceil_mul : scalar → nat → nat;       (* ceil(test_size * n_samples) *)
  rng_permutation : rng → nat → list nat * rng;
  minmax_fit : list (list scalar) → result scaler_state;
  minmax_transform :
    scaler_state → list (list scalar) → result (list (list scalar));
  summary_lines : option string → list Dense → list string;
  keras_fit :
    Sequential weights → list (list scalar) → list (list scalar) →
    nat → option nat → scalar → rng → result (weights * History scalar * rng);
  keras_evaluate :
    Sequential weights → list (list scalar) → list (list scalar) →
    result (list scalar);
  keras_predict :
    Sequential weights → list (list scalar) → result (list (list scalar))
}.

(** A two-dimensional array of floats, by rows. *)
Abbreviation matrix := (list (list scalar)).

Section Scripts.
Context `{B : Backend}.

(** ** scikit-learn's [MinMaxScaler] object *)
Record MinMaxScaler := mkScaler { fitted : option scaler_state }.

(** ** matplotlib figures *)
Inductive artist :=
| Line2D (xs : list nat) (ys : list scalar) (linewidth : nat) (color label : string)
| Title (s : string)
| XLabel (s : string)
| YLabel (s : string)
| Grid (alpha : Qc)
| Legend.

Record Figure := mkFigure { figsize : option (nat * nat); artists : list artist }.

(** ** Files *)
Inductive file :=
| CsvFile (header : list string) (records : list (list cell))
| ExcelFile (sheets : list (string * (list string * list (list cell))))
| OtherFile (bytes : string)
| H5File (m : Sequential weights)
| PickleFile (s : MinMaxScaler)
| JpegFile (dpi : nat) (bbox_inches : string) (fig : Figure).

(** ** The calls a script makes, and the log of them *)
Inductive call :=
| call_getcwd
| call_read_csv (path : string)
| call_read_excel (path sheet : string)
| call_dropna
| call_loc
| call_to_numpy
| call_train_test_split
| call_iloc
| call_MinMaxScaler
| call_scaler_fit_transform
| call_scaler_transform
| call_astype
| call_OneHotEncoder
| call_encoder_fit_transform (y : list Qc)
| call_Sequential
| call_add (l : Dense)
| call_summary
| call_compile
| call_fit (m : Sequential weights) (X Y : matrix)
| call_evaluate (m : Sequential weights) (X Y : matrix)
| call_predict (m : Sequential weights) (X : matrix)
| call_save (path : string)
| call_getitem (key : nat + string)
| call_unpack
| call_truth
| call_argmax
| call_print (line : string)
| call_plt (function : string)
| call_savefig (path : string)
| call_open (path : string)
| call_pickle_dump.

Inductive outcome :=
| Returned
| Raised (e : exn).

Definition event : Type := call * outcome.

(** The steps of the pipeline as the specification names them. *)
Inductive phase :=
| Load | Split | ScaleEncode | Build | Fit | Evaluate | Predict | ReportSave.

Definition phase_of (c : call) : phase :=
  match c with
  | call_getcwd | call_read_csv _ | call_read_excel _ _
  | call_dropna | call_loc | call_to_numpy => Load
  | call_train_test_split | call_iloc => Split
  | call_MinMaxScaler | call_scaler_fit_transform | call_scaler_transform
  | call_astype | call_OneHotEncoder | call_encoder_fit_transform _ => ScaleEncode
  | call_Sequential | call_add _ | call_summary | call_compile => Build
  | call_fit _ _ _ => Fit
  | call_evaluate _ _ _ | call_unpack => Evaluate
  | call_predict _ _ => Predict
  | call_save _ | call_getitem _ | call_truth | call_argmax
  | call_print _ | call_plt _ | call_savefig _ | call_open _
  | call_pickle_dump => ReportSave
  end.

Definition phase_rank (p : phase) : nat :=
  match p with
  | Load => 0 | Split => 1 | ScaleEncode => 2 | Build => 3
  | Fit => 4 | Evaluate => 5 | Predict => 6 | ReportSave => 7
  end.

(** The calls that write a file holding a model or a scaler. *)
Definition is_save (c : call) : bool :=
  match c with call_save _ | call_pickle_dump => true | _ => false end.


(** The calls into pandas, scikit-learn, numpy, Keras and matplotlib, as
    opposed to the interpreter's own indexing, unpacking and truth tests. *)
Definition is_library (c : call) : bool :=
  match c with
  | call_getitem _ | call_unpack | call_truth => false
  | _ => true
  end.


(** The models handed to [fit], [evaluate] and [predict]. *)
Definition models_of (evs : list event) : list (Sequential weights) :=
  omap (λ ev : event,
          match fst ev with
          | call_fit m _ _ | call_evaluate m _ _ | call_predict m _ => Some m
          | _ => None
          end) evs.

(** The arrays handed to [fit], and those handed to [evaluate]. *)
Definition fit_inputs (evs : list event) : list (matrix * matrix) :=
  omap (λ ev : event,
          match fst ev with
          | call_fit _ X Y => Some (X, Y)
          | _ => None
          end) evs.

Definition evaluate_inputs (evs : list event) : list (matrix * matrix) :=
  omap (λ ev : event,
          match fst ev with
          | call_evaluate _ X Y => Some (X, Y)
          | _ => None
          end) evs.

(** The lines the script itself printed, call by call. *)
Definition printed (evs : list event) : list string :=
  omap (λ ev : event,
          match fst ev with
          | call_print line => Some line
          | _ => None
          end) evs.

(** The columns the encoder was fitted on, call by call. *)
Definition encoder_fits (evs : list event) : list (list Qc) :=
  omap (λ ev : event,
          match fst ev with
          | call_encoder_fit_transform y => Some y
          | _ => None
          end) evs.

(** ** The world a script runs in *)
Record world := mkWorld {
  argv : list string;          (* sys.argv *)
  cwd : string;                (* the working directory *)
  fs : gmap string file;       (* files by absolute path *)
  random : rng;                (* the process-wide random generator *)
  stdout : list string;        (* what print wrote, call by call *)
  figures : list Figure;       (* open matplotlib figures, current first *)
  screen : list Figure         (* figures shown *)
}.

Definition set_argv (a : list string) (w : world) : world :=
  mkWorld a (cwd w) (fs w) (random w) (stdout w) (figures w) (screen w).
Definition set_fs (f : gmap string file) (w : world) : world :=
  mkWorld (argv w) (cwd w) f (random w) (stdout w) (figures w) (screen w).
Definition set_random (g : rng) (w : world) : world :=
  mkWorld (argv w) (cwd w) (fs w) g (stdout w) (figures w) (screen w).
Definition set_stdout (o : list string) (w : world) : world :=
  mkWorld (argv w) (cwd w) (fs w) (random w) o (figures w) (screen w).
Definition set_figures (f : list Figure) (w : world) : world :=
  mkWorld (argv w) (cwd w) (fs w) (random w) (stdout w) f (screen w).
Definition set_screen (s : list Figure) (w : world) : world :=
  mkWorld (argv w) (cwd w) (fs w) (random w) (stdout w) (figures w) s.

(** ** The monad of scripts: state, exceptions and the log of calls

    A run from a world gives a result (a value or the exception that ended
    the run), the world it leaves and the calls it made, oldest first. *)
Definition M (A : Type) : Type := world → result A * world * list event.

Definition result_of {A} (x : result A * world * list event) : result A := x.1.1.
Definition world_of {A} (x : result A * world * list event) : world := x.1.2.
Definition calls_of {A} (x : result A * world * list event) : list event := x.2.

Definition ret {A} (a : A) : M A := λ w, (Ok a, w, []).

Definition bind {A C} (m : M A) (k : A → M C) : M C :=
  λ w, match result_of (m w) with
       | Ok a =>
           let x := k a (world_of (m w)) in
           (result_of x, world_of x, calls_of (m w) ++ calls_of x)
       | Raise e => (Raise e, world_of (m w), calls_of (m w))
       end.

Definition outcome_of {A} (r : result A) : outcome :=
  match r with
  | Ok _ => Returned
  | Raise e => Raised e
  end.

(** A call: its effect on the world, logged with its outcome. *)
Definition invoke {A} (c : call) (f : world → result A * world) : M A :=
  λ w, ((f w).1, (f w).2, [(c, outcome_of (f w).1)]).

(** A call without effect on the world. *)
Definition pure_call {A} (c : call) (r : result A) : M A :=
  invoke c (λ w, (r, w)).

(** What holds of the result, final world and calls of a run. *)
Definition post {A} (m : M A) (w : world)
    (Q : result A → world → list event → Prop) : Prop :=
  Q (result_of (m w)) (world_of (m w)) (calls_of (m w)).

#[global] Instance M_ret : MRet M := @ret.
#[global] Instance M_bind : MBind M := λ A C k m, bind m k.

(** [for x in l: body]. *)
Fixpoint for_each {A} (l : list A) (body : A → M ()) : M () :=
  match l with
  | [] => mret ()
  | x :: l' => body x ;; for_each l' body
  end.


(** The calls of the loop over the predicted labels: [labels[i]] for a
    predicted [i], which returns exactly when [i] is in range, and [print]. *)
Definition label_event (names : list string) (predicted : list nat)
    (ev : event) : Prop :=
  (∃ i, i ∈ predicted ∧ ev.1 = call_getitem (inl i)
        ∧ (ev.2 = Returned ↔ i < length names))
  ∨ (∃ s, ev = (call_print s, Returned)).

(** The calls of the loop over the predictions of the diabetes script: the
    truth test of a row, and [print]. *)
Definition diagnosis_event (predictions : matrix) (ev : event) : Prop :=
  (∃ row, row ∈ predictions ∧ ev.1 = call_truth)
  ∨ (∃ s, ev = (call_print s, Returned)).

(** ** The operating system and the interpreter *)

Definition ends_with_slash (s : string) : bool :=
  match String.get (String.length s - 1) s with
  | Some c => bool_decide (c = "/"%char)
  | None => false
  end.

(** [os.path.join a b]. *)
Definition path_join (a b : string) : string :=
  if String.prefix "/" b then b
  else if bool_decide (a = "") then b
  else if ends_with_slash a then a +:+ b
  else a +:+ "/" +:+ b.

(** A relative path names a file of the working directory. *)
Definition abspath (w : world) (p : string) : string := path_join (cwd w) p.

Definition os_getcwd : M string :=
  invoke call_getcwd (λ w, (Ok (cwd w), w)).

Definition print (line : string) : M () :=
  invoke (call_print line) (λ w, (Ok (), set_stdout (stdout w ++ [line]) w)).

(** [l[i]] on a list. *)
Definition getitem {A} (l : list A) (i : nat) : M A :=
  pure_call (call_getitem (inl i))
    (match l !! i with
     | Some x => Ok x
     | None => Raise (Exn "IndexError" "list index out of range")
     end).

(** [d[k]] on a dictionary. *)
Definition dict_getitem {A} (d : gmap string A) (k : string) : M A :=
  pure_call (call_getitem (inr k))
    (match d !! k with
     | Some x => Ok x
     | None => Raise (Exn "KeyError" k)
     end).

(** [a, b = l]. *)
Definition unpack2 {A} (l : list A) : M (A * A) :=
  pure_call call_unpack
    (match l with
     | [a; b] => Ok (a, b)
     | _ => Raise (Exn "ValueError" "wrong number of values to unpack")
     end).

(** The truth value of a boolean array: defined for one element only. *)
Definition truth (a : list bool) : M bool :=
  pure_call call_truth
    (match a with
     | [b] => Ok b
     | _ => Raise (Exn "ValueError" "The truth value of an array is ambiguous")
     end).

(** ** pandas *)

Definition read_table (header : list string) (records : list (list cell))
  : result (DataFrame cell) :=
  match header with
  | [] => Raise (Exn "EmptyDataError" "No columns to parse from file")
  | _ :: _ =>
      if decide (Forall (λ r : list cell, length r ≤ length header) records)
      then Ok (mkFrame header (range_index (pad_record (length header) <$> records)))
      else Raise (Exn "ParserError" "Error tokenizing data")
  end.

Definition read_csv (path : string) : M (DataFrame cell) :=
  invoke (call_read_csv path) (λ w,
    (match fs w !! abspath w path with
     | None => Raise (Exn "FileNotFoundError" path)
     | Some (CsvFile header records) => read_table header records
     | Some _ => Raise (Exn "ParserError" "Error tokenizing data")
     end, w)).

(** The columns G to AN of a sheet are those at positions 6 to 39. *)
Definition usecols_G_AN : list nat := seq 6 34.

Definition select_positions {A} (ps : list nat) (r : list A) : list A :=
  omap (λ p, r !! p) ps.

Definition read_excel (path sheet : string) (usecols : list nat)
  : M (DataFrame cell) :=
  invoke (call_read_excel path sheet) (λ w,
    (match fs w !! abspath w path with
     | None => Raise (Exn "FileNotFoundError" path)
     | Some (ExcelFile sheets) =>
         match list_find (λ s : string * _, fst s = sheet) sheets with
         | None => Raise (Exn "ValueError" "Worksheet not found")
         | Some (_, (_, (header, records))) =>
             if decide (Forall (λ p, p < length header) usecols)
             then read_table (select_positions usecols header)
                    (select_positions usecols <$> records)
             else Raise (Exn "ParserError" "usecols out of bounds")
         end
     | Some _ => Raise (Exn "ValueError" "Excel file format cannot be determined")
     end, w)).

Definition df_dropna (d : DataFrame cell) : M (DataFrame Qc) :=
  pure_call call_dropna (Ok (dropna d)).

Definition df_loc {A} (d : DataFrame A) (cols : list string) : M (DataFrame A) :=
  pure_call call_loc (loc_columns d cols).

Definition df_iloc_but_last {A} (d : DataFrame A) : M (DataFrame A) :=
  pure_call call_iloc (Ok (iloc_but_last d)).

Definition df_iloc_last {A} (d : DataFrame A) : M (list (nat * A)) :=
  pure_call call_iloc (iloc_last d).

Definition to_numpy (d : DataFrame cell) : M (list (list cell)) :=
  pure_call call_to_numpy (Ok (values d)).

(** ** scikit-learn *)

(** [train_test_split(data, test_size=..)] with [shuffle] at its default:
    the first [n_test] entries of a random permutation of the row positions
    are the test rows, the next [n_train] the training rows.  Without
    [random_state] the permutation comes from the process-wide generator. *)
Definition train_test_split {A} (data : DataFrame A) (test_size : scalar)
    (random_state : option rng) : M (DataFrame A * DataFrame A) :=
  invoke call_train_test_split (λ w,
    let n_samples := length (rows data) in
    let n_test := ceil_mul test_size n_samples in
    let n_train := n_samples - n_test in
    if decide (n_train = 0)
    then (Raise (Exn "ValueError" "the resulting train set will be empty"), w)
    else
      match random_state with
      | Some g =>
          let permutation := fst (rng_permutation g n_samples) in
          (Ok (take_rows data (take n_train (drop n_test permutation)),
               take_rows data (take n_test permutation)), w)
      | None =>
          let '(permutation, g) := rng_permutation (random w) n_samples in
          (Ok (take_rows data (take n_train (drop n_test permutation)),
               take_rows data (take n_test permutation)), set_random g w)
      end).

(** A frame or an array of table cells as the numeric array handed to
    scikit-learn or Keras. *)
Definition frame_array (d : DataFrame Qc) : matrix :=
  (λ r : list Qc, (λ x, float_of_cell (Some x)) <$> r) <$> values d.
Definition cells_array (a : list (list cell)) : matrix :=
  (λ r : list cell, float_of_cell <$> r) <$> a.
(** A series of labels as a column of floats. *)
Definition series_array {A} (conv : A → scalar) (s : list (nat * A)) : matrix :=
  (λ r : nat * A, [conv (snd r)]) <$> s.
Definition uint8_array (a : list (list nat)) : matrix :=
  (λ r : list nat, float_of_uint8 <$> r) <$> a.

Definition MinMaxScaler_new : M MinMaxScaler :=
  pure_call call_MinMaxScaler (Ok (mkScaler None)).

(** [scaler.fit_transform(X)]: fits the scaler in place and returns the
    scaled array. *)
Definition scaler_fit_transform (s : MinMaxScaler) (X : matrix)
  : M (MinMaxScaler * matrix) :=
  pure_call call_scaler_fit_transform
    (result_bind (minmax_fit X) (λ st,
       result_bind (minmax_transform st X) (λ X', Ok (mkScaler (Some st), X')))).

Definition scaler_transform (s : MinMaxScaler) (X : matrix) : M matrix :=
  pure_call call_scaler_transform
    (match fitted s with
     | None => Raise (Exn "NotFittedError" "This MinMaxScaler instance is not fitted yet")
     | Some st => minmax_transform st X
     end).

Definition astype_float16 (X : matrix) : M matrix :=
  pure_call call_astype (Ok ((λ r : list scalar, float16 <$> r) <$> X)).

Definition OneHotEncoder_new (sparse : bool) (dt : string) : M OneHotEncoder :=
  pure_call call_OneHotEncoder (Ok (mkEncoder sparse dt None)).

(** [encoder.fit_transform(np.array(y).reshape(-1,1))]: the labels of the
    series as one feature column. *)
Definition fit_transform_labels (enc : OneHotEncoder) (y : list (nat * Qc))
  : M (OneHotEncoder * list (list nat)) :=
  pure_call (call_encoder_fit_transform (snd <$> y))
    (let '(enc', r) := encoder_fit_transform enc (snd <$> y) in
     result_bind r (λ Y, Ok (enc', Y))).

(** ** numpy *)

Fixpoint argmax_from (best : scalar) (besti i : nat) (l : list scalar) : nat :=
  match l with
  | [] => besti
  | x :: l' =>
      if float_gt x best then argmax_from x i (S i) l'
      else argmax_from best besti (S i) l'
  end.

(** [np.argmax] of one row: the position of the first largest entry. *)
Definition argmax (row : list scalar) : result nat :=
  match row with
  | [] => Raise (Exn "ValueError" "attempt to get argmax of an empty sequence")
  | x :: l => Ok (argmax_from x 0 1 l)
  end.

(** [np.argmax(a, axis=1)]. *)
Definition np_argmax_axis1 (a : matrix) : M (list nat) :=
  pure_call call_argmax (result_mapM argmax a).

(** ** Keras *)

Definition Sequential_new (name : option string) : M (Sequential weights) :=
  pure_call call_Sequential (Ok (mkSequential name [] None None)).

Definition model_add (m : Sequential weights) (l : Dense) : M (Sequential weights) :=
  pure_call (call_add l)
    (Ok (mkSequential (model_name m) (layers m ++ [l]) (compiled m) (trained m))).

Definition model_summary (m : Sequential weights) : M () :=
  invoke call_summary (λ w,
    (Ok (), set_stdout (stdout w ++ summary_lines (model_name m) (layers m)) w)).

Definition model_compile (m : Sequential weights) (loss opt : string)
    (ms : list string) : M (Sequential weights) :=
  pure_call call_compile
    (Ok (mkSequential (model_name m) (layers m) (Some (mkCompile loss opt ms))
           (trained m))).

(** [model.fit]: trains the model in place and returns the history. *)
Definition model_fit (m : Sequential weights) (X Y : matrix) (epochs : nat)
    (batch_size : option nat) (validation_split : scalar)
  : M (Sequential weights * History scalar) :=
  invoke (call_fit m X Y) (λ w,
    match keras_fit m X Y epochs batch_size validation_split (random w) with
    | Ok (wts, h, g) =>
        (Ok (mkSequential (model_name m) (layers m) (compiled m) (Some wts), h),
         set_random g w)
    | Raise e => (Raise e, w)
    end).

Definition model_evaluate (m : Sequential weights) (X Y : matrix)
  : M (list scalar) :=
  pure_call (call_evaluate m X Y) (keras_evaluate m X Y).

Definition model_predict (m : Sequential weights) (X : matrix) : M matrix :=
  pure_call (call_predict m X) (keras_predict m X).

(** [model.save(path)], on a path the file system accepts. *)
Definition model_save (m : Sequential weights) (path : string) : M () :=
  invoke (call_save path) (λ w,
    (Ok (), set_fs (<[abspath w path := H5File m]> (fs w)) w)).

(** ** matplotlib.pyplot *)

Definition current_figure (w : world) : Figure :=
  match figures w with
  | [] => mkFigure None []
  | fig :: _ => fig
  end.

Definition set_current_figure (fig : Figure) (w : world) : world :=
  set_figures (fig :: tail (figures w)) w.

Definition draw (a : artist) (fig : Figure) : Figure :=
  mkFigure (figsize fig) (artists fig ++ [a]).

Definition plt_draw (function : string) (a : artist) : M () :=
  invoke (call_plt function) (λ w,
    (Ok (), set_current_figure (draw a (current_figure w)) w)).

Definition plt_figure (size : nat * nat) : M () :=
  invoke (call_plt "figure") (λ w,
    (Ok (), set_figures (mkFigure (Some size) [] :: figures w) w)).

Definition plt_plot (xs : list nat) (ys : list scalar) (linewidth : nat)
    (color label : string) : M () :=
  invoke (call_plt "plot") (λ w,
    if decide (length xs = length ys)
    then (Ok (), set_current_figure
                   (draw (Line2D xs ys linewidth color label) (current_figure w)) w)
    else (Raise (Exn "ValueError" "x and y must have same first dimension"), w)).

(** [plt.savefig(path, dpi=.., bbox_inches=..)].  As for every write of
    the scripts ([model.save], [open(.., 'wb')], [pickle.dump]), the path is
    taken to be one the file system accepts: a refused write is not part of
    this model, and what is proved of a run that returns says nothing of
    it. *)
Definition plt_savefig (path : string) (dpi : nat) (bbox_inches : string)
  : M () :=
  invoke (call_savefig path) (λ w,
    (Ok (),
     set_fs (<[abspath w path := JpegFile dpi bbox_inches (current_figure w)]>
               (fs w))
       (set_current_figure (current_figure w) w))).

Definition plt_show : M () :=
  invoke (call_plt "show") (λ w,
    (Ok (), set_screen (screen w ++ reverse (figures w)) (set_figures [] w))).

(** ** pickle *)

(** [open(path, 'wb')]: creates or truncates the file. *)
Definition open_wb (path : string) : M string :=
  invoke (call_open path) (λ w,
    (Ok (abspath w path), set_fs (<[abspath w path := OtherFile ""]> (fs w)) w)).

Definition pickle_dump (s : MinMaxScaler) (f : string) : M () :=
  invoke call_pickle_dump (λ w, (Ok (), set_fs (<[f := PickleFile s]> (fs w)) w)).

Definition newline : string := String (ascii_of_nat 10) "".

(** [a.shape[1]] of a two-dimensional array held by rows. *)
Definition shape1 {A} (a : list (list A)) : nat :=
  match a with
  | [] => 0
  | r :: _ => length r
  end.

(** ** 02-keras-2L-diabetes-predict/keras-predictor.py *)

Definition DIVIDE_RATIO : scalar := float (Q2Qc (8 # 10)).

(** The module body, statement by statement. *)
Definition keras_predictor : M () :=
  cwd ← os_getcwd;
  diabetes_data ←
    read_csv (path_join cwd "02-keras-2L-diabetes-predict/diabetes.csv");
  '(train_dataset, test_set) ←
    train_test_split diabetes_data (float_sub (float 1) DIVIDE_RATIO) None;
  X_train ← df_iloc_but_last train_dataset;
  y_train ← df_iloc_last train_dataset;
  X_test ← df_iloc_but_last test_set;
  y_test ← df_iloc_last test_set;
  model ← Sequential_new (Some "Pima-Indians-Diabetes-X_test");
  model ← model_add model
            (mkDense 64 "relu" (Some (length (columns X_train))) "hidden-1");
  model ← model_add model (mkDense 64 "relu" None "hidden-2");
  model ← model_add model (mkDense 1 "sigmoid" None "output");
  model_summary model;;
  model ← model_compile model "binary_crossentropy" "adam" ["binary_accuracy"];
  '(model, _) ←
    model_fit model (cells_array (values X_train))
      (series_array float_of_cell y_train) 100 (Some 32) (float (Q2Qc (2 # 10)));
  score ←
    model_evaluate model (cells_array (values X_test))
      (series_array float_of_cell y_test);
  accuracy ← getitem score 1;
  print ("Test accuracy: " +:+ float_repr accuracy);;
  diabetes_data_to_predict ←
    read_csv (path_join cwd "02-keras-2L-diabetes-predict/predicted.csv")
    ≫= to_numpy;
  predictions ← model_predict model (cells_array diabetes_data_to_predict);
  for_each predictions (λ prediction : list scalar,
    diabetic ← truth ((λ p, float_gt p (float (Q2Qc (5 # 10)))) <$> prediction);
    print (if diabetic : bool then "Person have got diabetes..."
           else "Person is healthy...")).

(** ** _homeworks_/homework_04/cardiotocographic-classification.py *)

Definition create_cardiotocographic_model (input_dim num_categories : nat)
    (name : option string) : M (Sequential weights) :=
  model ← Sequential_new name;
  model ← model_add model (mkDense 64 "relu" (Some input_dim) "Hidden1");
  model ← model_add model (mkDense 64 "relu" None "Hidden2");
  model ← model_add model (mkDense num_categories "softmax" None "output");
  model_summary model;;
  model ← model_compile model "categorical_crossentropy" "rmsprop"
            ["categorical_accuracy"];
  mret model.

Definition train_evaluate_save_model (X_train y_train X_test y_test
    X_to_predict : matrix) (num_categories : nat) (name : string) (epochs : nat)
  : M (History scalar * scalar * scalar * matrix) :=
  model ← create_cardiotocographic_model (shape1 X_train) num_categories
            (Some "cardiotocographic-predictor");
  '(model, hist) ←
    model_fit model X_train y_train epochs None (float (Q2Qc (2 # 10)));
  scores ← model_evaluate model X_test y_test;
  '(loss, category_accuracy) ← unpack2 scores;
  predictions ← model_predict model X_to_predict;
  model_save model (name +:+ ".h5");;
  mret (hist, loss, category_accuracy, predictions).

Definition plot_metric_graph (hist : History scalar) (metric title : string)
  : M () :=
  plt_figure (15, 5);;
  training ← dict_getitem (history hist) metric;
  plt_plot (epoch hist) training 2 "blue" ("training " +:+ metric);;
  validation ← dict_getitem (history hist) ("val_" +:+ metric);
  plt_plot (epoch hist) validation 2 "orange" ("validation " +:+ metric);;
  plt_draw "title" (Title ("Epochs vs " +:+ metric));;
  plt_draw "xlabel" (XLabel "Epochs");;
  plt_draw "ylabel" (YLabel metric);;
  plt_draw "grid" (Grid (Q2Qc (5 # 10)));;
  plt_draw "legend" Legend;;
  plt_savefig (title +:+ ".jpg") 300 "tight";;
  plt_show.

(** The figure that [plot_metric_graph] draws of two curves. *)
Definition metric_figure (epochs : list nat) (training validation : list scalar)
    (metric : string) : Figure :=
  mkFigure (Some (15, 5))
    [Line2D epochs training 2 "blue" ("training " +:+ metric);
     Line2D epochs validation 2 "orange" ("validation " +:+ metric);
     Title ("Epochs vs " +:+ metric);
     XLabel "Epochs";
     YLabel metric;
     Grid (Q2Qc (5 # 10));
     Legend].

Definition CTG_columns : list string :=
  ["LB"; "AC"; "FM"; "UC"; "DL"; "DS"; "DP"; "ASTV"; "MSTV"; "ALTV"; "MLTV";
   "Width"; "Min"; "Max"; "Nmax"; "Nzeros"; "Mode"; "Mean"; "Median";
   "Variance"; "Tendency"; "NSP"].

Definition labels : list string :=
  ["Normal patient"; "Suspect patient"; "Pathologic patient"].

(** [main()]; [epochs] is left at its default, 5. *)
Definition main : M () :=
  CTG_data ← read_excel "CTG.xls" "Raw Data" usecols_G_AN ≫= df_dropna;
  CTG_data ← df_loc CTG_data CTG_columns;
  '(training_set, test_set) ←
    train_test_split CTG_data (float (Q2Qc (2 # 10))) None;
  X_train ← df_iloc_but_last training_set;
  y_train ← df_iloc_last training_set;
  X_test ← df_iloc_but_last test_set;
  y_test ← df_iloc_last test_set;
  scaler ← MinMaxScaler_new;
  '(scaler, X_train) ← scaler_fit_transform scaler (frame_array X_train);
  X_train ← astype_float16 X_train;
  X_test ← scaler_transform scaler (frame_array X_test) ≫= astype_float16;
  encoder ← OneHotEncoder_new false "uint8";
  '(encoder, y_train) ← fit_transform_labels encoder y_train;
  '(encoder, y_test) ← fit_transform_labels encoder y_test;
  cardiotocographic_data_to_predict ← read_csv "predicted.csv" ≫= to_numpy;
  cardiotocographic_data_to_predict ←
    scaler_transform scaler (cells_array cardiotocographic_data_to_predict);
  let num_categories := length labels in
  '(hist, loss, categorical_accuracy, predictions) ←
    train_evaluate_save_model X_train (uint8_array y_train) X_test
      (uint8_array y_test) cardiotocographic_data_to_predict num_categories
      "cardiotocographic-predictor" 5;
  plot_metric_graph hist "loss" "Epoch-Loss Graph";;
  plot_metric_graph hist "categorical_accuracy" "Epoch-Categorical Accuracy Graph";;
  print "################################";;
  print "Model Evaluation Metrics:";;
  print ("loss: " +:+ float_repr loss +:+ newline +:+ "categorical_accuracy: "
         +:+ float_repr categorical_accuracy);;
  print "################################";;
  predicted ← np_argmax_axis1 predictions;
  for_each predicted (λ prediction,
    label ← getitem labels prediction;
    print label);;
  f ← open_wb "cardiotocographic.pickle";
  pickle_dump scaler f.

End Scripts.

(** ** What the specification asks of a run *)

Section Claims.
Context `{B : Backend}.

(** What the scripts take for granted of Keras: a prediction has one row
    per input row, with as many entries as the last layer has units. *)
Definition predict_contract : Prop :=
  ∀ m X P, keras_predict m X = Ok P →
    Forall (λ row, Some (length row) = units <$> last (layers m)) P.

(** C1 as the specification states it: a complete run saves the fitted
    model and the fitted scaler, and both files are there at the end. *)
Definition serializes_model_and_scaler (script : M ()) : Prop :=
  ∀ w, result_of (script w) = Ok () →
    (∃ p m, (call_save p, Returned) ∈ calls_of (script w)
            ∧ fs (world_of (script w)) !! abspath w p = Some (H5File m)
            ∧ is_Some (trained m))
    ∧ (∃ p s, (call_open p, Returned) ∈ calls_of (script w)
              ∧ (call_pickle_dump, Returned) ∈ calls_of (script w)
              ∧ fs (world_of (script w)) !! abspath w p = Some (PickleFile s)
              ∧ is_Some (fitted s)).

(** A run does not look at the command line: with other arguments it gives
    the same result, the same calls and the same world, arguments apart. *)
Definition argv_blind {A} (m : M A) : Prop :=
  ∀ a w, m (set_argv a w)
         = (result_of (m w), set_argv a (world_of (m w)), calls_of (m w)).

(** A run is ended by the first call that raises, with the exception of
    that call: either every call returned and so did the run, or the last
    call raised what the run raises and every call before it returned. *)
Definition propagates {A} (m : M A) : Prop :=
  ∀ w, match result_of (m w) with
       | Ok _ => Forall (λ ev : event, ev.2 = Returned) (calls_of (m w))
       | Raise e =>
           ∃ evs c, calls_of (m w) = evs ++ [(c, Raised e)]
                    ∧ Forall (λ ev : event, ev.2 = Returned) evs
       end.

(** What the scripts take for granted of numpy: a random permutation of
    [n] positions holds each of 0, ..., n-1 once. *)
Definition permutation_contract : Prop :=
  ∀ g n, (rng_permutation g n).1 ≡ₚ seq 0 n.

(** The data set a script loads, before it splits it: the first statements
    of the diabetes script, and of [main]. *)
Definition diabetes_dataset : M (DataFrame cell) :=
  cwd ← os_getcwd;
  read_csv (path_join cwd "02-keras-2L-diabetes-predict/diabetes.csv").

Definition CTG_dataset : M (DataFrame Qc) :=
  CTG_data ← read_excel "CTG.xls" "Raw Data" usecols_G_AN ≫= df_dropna;
  df_loc CTG_data CTG_columns.

(** [train] and [test] split [data]: no row label is in both, and together
    they hold the rows of [data], each once. *)
Definition splits {A} (data train test : DataFrame A) : Prop :=
  (∀ i, i ∈ index train → i ∉ index test)
  ∧ rows train ++ rows test ≡ₚ rows data.

(** The arrays the diabetes script makes of a frame [d]: its features and
    its last column. *)
Definition diabetes_arrays (d : DataFrame cell) (XY : matrix * matrix) : Prop :=
  ∃ y, iloc_last d = Ok y
       ∧ XY = (cells_array (values (iloc_but_last d)),
               series_array float_of_cell y).

(** The arrays the cardiotocographic script makes of a frame [d]: its
    features, scaled by the scaler fitted on the features of [train], and
    its last column, one-hot encoded by an encoder fitted on it. *)
Definition CTG_arrays (train d : DataFrame Qc) (XY : matrix * matrix) : Prop :=
  ∃ st X y,
    minmax_fit (frame_array (iloc_but_last train)) = Ok st
    ∧ minmax_transform st (frame_array (iloc_but_last d)) = Ok X
    ∧ iloc_last d = Ok y
    ∧ XY = ((λ r : list scalar, float16 <$> r) <$> X,
            uint8_array (one_hot_encode (np_unique y.*2) y.*2)).

(** Between 0 and 1, in the order that the scripts compare floats with
    ([float_gt] is their [>]): neither is 0 above [x], nor [x] above 1. *)
Definition in_unit_interval (x : scalar) : Prop :=
  float_gt (float 0%Qc) x = false ∧ float_gt x (float 1%Qc) = false.

(** What the scripts take for granted of Keras: the second value that
    [evaluate] returns, the accuracy, lies between 0 and 1. *)
Definition accuracy_contract : Prop :=
  ∀ m X Y scores acc,
    keras_evaluate m X Y = Ok scores → scores !! 1 = Some acc →
    in_unit_interval acc.

(** The two frames that [train_test_split] makes of [data] when the
    generator is in state [g]: the training frame, then the test frame. *)
Definition drawn_split {A} (data : DataFrame A) (test_size : scalar) (g : rng)
  : DataFrame A * DataFrame A :=
  (take_rows data
     (take (length (rows data) - ceil_mul test_size (length (rows data)))
        (drop (ceil_mul test_size (length (rows data)))
           (rng_permutation g (length (rows data))).1)),
   take_rows data
     (take (ceil_mul test_size (length (rows data)))
        (rng_permutation g (length (rows data))).1)).

(** C4 as the specification states it, for the run: on a data set that
    loads, the script executes without error. *)
Definition runs_without_error {D} (dataset : M D) (script : M ()) : Prop :=
  ∀ w, (∃ data, result_of (dataset w) = Ok data) → result_of (script w) = Ok ().

(** C4 as the specification states it, for the split: what a script
    accepts is its command line and its files, so with the same data and
    the same seed two runs evaluate on the same split. *)
Definition seed_fixes_split (script : M ()) : Prop :=
  ∀ w1 w2, argv w1 = argv w2 → cwd w1 = cwd w2 → fs w1 = fs w2 →
    evaluate_inputs (calls_of (script w1))
    = evaluate_inputs (calls_of (script w2)).

(** C10 as the specification states it: every label of [y_test] has the
    same column in the encoding of [y_test] and in that of [y_train]
    exactly when the two columns have the same set of labels. *)
Definition same_columns_iff_same_labels : Prop :=
  ∀ y_train y_test : list Qc,
    (∀ v, v ∈ y_test → column_of y_test v = column_of y_train v)
    ↔ (∀ v, v ∈ y_train ↔ v ∈ y_test).




End Claims.

(** ** A small back end and two small worlds

    Exact rationals for floats, a counter for the random generator (the
    k-th permutation rotates the positions by k), the identity for the
    scaler and a network that answers the uniform distribution over its outputs.  They
    serve to run the scripts on concrete inputs. *)

Definition toy_history (epochs : nat) (ms : list string) : History Qc :=
  mkHistory (seq 0 epochs)
    (list_to_map
       (flat_map (λ m : string, [(m, replicate epochs 0%Qc);
                                 ("val_" +:+ m, replicate epochs 0%Qc)])
          ("loss" :: ms))).

Definition toy_predict (m : Sequential nat) (X : list (list Qc))
  : result (list (list Qc)) :=
  match last (layers m) with
  | Some l =>
      Ok ((λ _, replicate (units l) (Q2Qc (1 # Pos.of_nat (units l)))) <$> X)
  | None => Raise (Exn "ValueError" "the model has no layer")
  end.

Definition toy : Backend := {|
  scalar := Qc;
  rng := nat;
  weights := nat;
  scaler_state := nat;
  float := id;
  float_sub := Qcminus;
  float_gt := λ x y, bool_decide (y < x)%Qc;
  float_repr := λ x, if bool_decide (x = 0%Qc) then "0.0" else "0.75";
  float_of_cell := default 0%Qc;
  float_of_uint8 := λ n, Qc_of_Z (Z.of_nat n);
  float16 := id;
  ceil_mul := λ t n, Z.to_nat (Qceiling (this t * inject_Z (Z.of_nat n))%Q);
  rng_permutation := λ g n, (rotate g (seq 0 n), S g);
  minmax_fit := λ X, Ok (shape1 X);
  minmax_transform := λ _ X, Ok X;
  summary_lines := λ _ ls, ["Model: sequential"];
  keras_fit := λ m X Y epochs _ _ g,
    Ok (length X, toy_history epochs (default [] (metrics <$> compiled m)), S g);
  keras_evaluate := λ m X Y, Ok [Q2Qc (1 # 2); Q2Qc (3 # 4)];
  keras_predict := toy_predict
|}.

(** A sheet of [n] records under a 40-column header whose columns G to AN
    begin with the 22 columns the script keeps; record [i] has class
    [i mod 3 + 1] in column NSP. *)
Definition toy_sheet (n : nat) : list string * list (list cell) :=
  (["A"; "B"; "C"; "D"; "E"; "F"] ++ CTG_columns
     ++ ["A1"; "B1"; "C1"; "D1"; "E1"; "F1"; "G1"; "H1"; "I1"; "J1"; "K1"; "L1"],
   (λ i, replicate 27 (Some (Qc_of_Z (Z.of_nat i)))
           ++ [Some (Qc_of_Z (Z.of_nat (i mod 3 + 1)))]
           ++ replicate 12 (Some 0%Qc)) <$> seq 0 n).

Definition toy_predicted : @file toy :=
  CsvFile (removelast CTG_columns)
    [replicate 21 (Some 1%Qc); replicate 21 (Some 2%Qc)].

Definition toy_world_ctg (g : nat) (args : list string) : @world toy :=
  @mkWorld toy args "/home/user"
    (<["/home/user/CTG.xls" := ExcelFile [("Raw Data", toy_sheet 10)]]>
       (<["/home/user/predicted.csv" := toy_predicted]> ∅))
    g [] [] [].

(** A working directory without the input files. *)
Definition toy_world_empty : @world toy :=
  @mkWorld toy [] "/home/user" ∅ 0 [] [] [].

Definition toy_diabetes_header : list string :=
  ["Pregnancies"; "Glucose"; "BloodPressure"; "SkinThickness"; "Insulin";
   "BMI"; "DiabetesPedigreeFunction"; "Age"; "Outcome"].

Definition toy_world_diabetes (g : nat) (args : list string) : @world toy :=
  @mkWorld toy args "/home/user"
    (<["/home/user/02-keras-2L-diabetes-predict/diabetes.csv" :=
         CsvFile toy_diabetes_header
           ((λ i, replicate 8 (Some (Qc_of_Z (Z.of_nat i)))
                    ++ [Some (Qc_of_Z (Z.of_nat (i mod 2)))]) <$> seq 0 10)]>
       (<["/home/user/02-keras-2L-diabetes-predict/predicted.csv" :=
            CsvFile (removelast toy_diabetes_header)
              [replicate 8 (Some 1%Qc); replicate 8 (Some 2%Qc)]]> ∅))
    g [] [] [].

(** The same back end, with a model that [evaluate] gives one value for, as
    Keras does of a model compiled without metrics. *)
Definition toy_single_score : Backend := {|
  scalar := Qc;
  rng := nat;
  weights := nat;
  scaler_state := nat;
  float := id;
  float_sub := Qcminus;
  float_gt := λ x y, bool_decide (y < x)%Qc;
  float_repr := λ x, if bool_decide (x = 0%Qc) then "0.0" else "0.75";
  float_of_cell := default 0%Qc;
  float_of_uint8 := λ n, Qc_of_Z (Z.of_nat n);
  float16 := id;
  ceil_mul := λ t n, Z.to_nat (Qceiling (this t * inject_Z (Z.of_nat n))%Q);
  rng_permutation := λ g n, (rotate g (seq 0 n), S g);
  minmax_fit := λ X, Ok (shape1 X);
  minmax_transform := λ _ X, Ok X;
  summary_lines := λ _ ls, ["Model: sequential"];
  keras_fit := λ m X Y epochs _ _ g,
    Ok (length X, toy_history epochs (default [] (metrics <$> compiled m)), S g);
  keras_evaluate := λ m X Y, Ok [Q2Qc (1 # 2)];
  keras_predict := toy_predict
|}.

(** A working directory with the sheet only, and one with the data of the
    diabetes script only, [n] records long. *)
Definition toy_world_sheet (sheet : list string * list (list cell))
  : @world toy :=
  @mkWorld toy [] "/home/user"
    (<["/home/user/CTG.xls" := ExcelFile [("Raw Data", sheet)]]> ∅)
    0 [] [] [].

Definition toy_world_csv (n : nat) : @world toy :=
  @mkWorld toy [] "/home/user"
    (<["/home/user/02-keras-2L-diabetes-predict/diabetes.csv" :=
         CsvFile toy_diabetes_header
           ((λ i, replicate 8 (Some (Qc_of_Z (Z.of_nat i)))
                    ++ [Some (Qc_of_Z (Z.of_nat (i mod 2)))]) <$> seq 0 n)]> ∅)
    0 [] [] [].

(** A sheet whose last kept column is called [CLASS], not [NSP]. *)
Definition toy_sheet_renamed : list string * list (list cell) :=
  (["A"; "B"; "C"; "D"; "E"; "F"] ++ removelast CTG_columns ++ ["CLASS"]
     ++ ["A1"; "B1"; "C1"; "D1"; "E1"; "F1"; "G1"; "H1"; "I1"; "J1"; "K1"; "L1"],
   []).

(** * Properties *)

(** ** Sorted distinct values and one-hot rows *)

Section Encoder.

Lemma elem_of_insert_unique x y l : y ∈ insert_unique x l ↔ y = x ∨ y ∈ l.
Proof.
  induction l as [|z l IH]; simpl.
  - rewrite list_elem_of_singleton, elem_of_nil. tauto.
  - repeat case_decide; subst; rewrite ?elem_of_cons, ?IH, ?elem_of_cons;
      intuition congruence.
Qed.

Lemma elem_of_np_unique y l : y ∈ np_unique l ↔ y ∈ l.
Proof.
  induction l as [|z l IH]; simpl; [done|].
  rewrite elem_of_insert_unique, IH, elem_of_cons. tauto.
Qed.

Lemma insert_unique_sorted x l :
  StronglySorted Qclt l → StronglySorted Qclt (insert_unique x l).
Proof.
  induction 1 as [|z l Hl IH Hz]; simpl.
  - repeat constructor.
  - destruct (decide (x < z)%Qc) as [Hlt|Hnlt].
    + constructor; [by constructor|].
      constructor; [done|].
      eapply Forall_impl; [exact Hz|]. intros y Hy. by etrans.
    + destruct (decide (x = z)) as [->|Hne]; [by constructor|].
      constructor; [done|].
      apply Forall_forall. intros y Hy.
      apply elem_of_insert_unique in Hy as [->|Hy].
      * apply Qcnot_lt_le in Hnlt.
        destruct (Qcle_lt_or_eq _ _ Hnlt); [done|congruence].
      * rewrite Forall_forall in Hz. by apply Hz.
Qed.

Lemma np_unique_sorted l : StronglySorted Qclt (np_unique l).
Proof.
  induction l; simpl; [constructor|by apply insert_unique_sorted].
Qed.

Lemma sorted_lt_NoDup (l : list Qc) : StronglySorted Qclt l → NoDup l.
Proof.
  induction 1 as [|z l Hl IH Hz]; constructor; [|done].
  intros Hin. rewrite Forall_forall in Hz.
  by apply (irreflexivity Qclt z), Hz.
Qed.

(** Two increasing lists with the same elements are the same list. *)
Lemma sorted_lt_ext (l1 l2 : list Qc) :
  StronglySorted Qclt l1 → StronglySorted Qclt l2 →
  (∀ x, x ∈ l1 ↔ x ∈ l2) → l1 = l2.
Proof.
  intros H1 H2 Hel.
  apply (StronglySorted_unique_strong Qclt); [|done|done|].
  - intros x1 x2 _ _ Ha Hb.
    destruct (irreflexivity Qclt x1). by etrans.
  - apply NoDup_Permutation; auto using sorted_lt_NoDup.
Qed.

Lemma np_unique_ext y1 y2 :
  (∀ v, v ∈ y1 ↔ v ∈ y2) → np_unique y1 = np_unique y2.
Proof.
  intros H. apply sorted_lt_ext; auto using np_unique_sorted.
  intros x. by rewrite !elem_of_np_unique.
Qed.

(** On an increasing array [searchsorted] finds the position of a member. *)
Lemma searchsorted_lookup cats v :
  StronglySorted Qclt cats → v ∈ cats → cats !! searchsorted cats v = Some v.
Proof.
  induction 1 as [|z l Hl IH Hz]; intros Hin; [by apply elem_of_nil in Hin|].
  simpl. apply elem_of_cons in Hin as [->|Hin].
  - destruct (decide (z < z)%Qc) as [Hlt|]; [|done].
    by destruct (irreflexivity Qclt z).
  - rewrite Forall_forall in Hz. rewrite decide_True by auto. by apply IH.
Qed.

Lemma searchsorted_lt cats v :
  StronglySorted Qclt cats → v ∈ cats → searchsorted cats v < length cats.
Proof.
  intros Hs Hin. eapply lookup_lt_Some, searchsorted_lookup; eauto.
Qed.

Lemma one_hot_row_length width code : length (one_hot_row width code) = width.
Proof. unfold one_hot_row. by rewrite length_fmap, length_seq. Qed.

Lemma one_hot_row_binary width code :
  Forall (λ b, b = 0 ∨ b = 1) (one_hot_row width code).
Proof.
  unfold one_hot_row. apply Forall_fmap, Forall_forall. intros j _. simpl.
  case_decide; auto.
Qed.

Lemma sum_indicator_seq code start len :
  sum_list ((λ j, if decide (j = code) then 1 else 0) <$> seq start len)
  = if decide (start ≤ code < start + len) then 1 else 0.
Proof.
  revert start. induction len as [|len IH]; intros start; simpl.
  - case_decide; lia.
  - rewrite IH. repeat case_decide; lia.
Qed.

Lemma one_hot_row_sum width code :
  code < width → sum_list (one_hot_row width code) = 1.
Proof.
  intros H. unfold one_hot_row. rewrite sum_indicator_seq.
  case_decide; lia.
Qed.

Lemma one_hot_row_lookup width code j :
  j < width →
  one_hot_row width code !! j = Some (if decide (j = code) then 1 else 0).
Proof.
  intros H. unfold one_hot_row.
  rewrite list_lookup_fmap, lookup_seq_lt by done. done.
Qed.

(** Every row an encoder gives to the column it was fitted on is one-hot. *)
Lemma one_hot_encode_fitted y : Forall one_hot (one_hot_encode (np_unique y) y).
Proof.
  unfold one_hot_encode. apply Forall_fmap, Forall_forall. intros v Hv. simpl.
  split; [apply one_hot_row_binary|].
  apply one_hot_row_sum, searchsorted_lt; [apply np_unique_sorted|].
  by apply elem_of_np_unique.
Qed.

Lemma column_of_Some y v : is_Some (column_of y v) ↔ v ∈ y.
Proof.
  unfold column_of. rewrite <- (elem_of_np_unique v y).
  case_decide as Hin.
  - split; [done|]. intros _. by eexists.
  - split; [|done]. intros [? ?]. done.
Qed.

(** The column of a label is its position among the categories. *)
Lemma column_of_lookup y v c :
  column_of y v = Some c ↔ np_unique y !! c = Some v.
Proof.
  unfold column_of. split.
  - case_decide as Hin; [|done]. intros [= <-].
    by apply searchsorted_lookup; [apply np_unique_sorted|].
  - intros Hc. assert (v ∈ np_unique y) as Hin by by eapply list_elem_of_lookup_2.
    rewrite decide_True by done. f_equal.
    eapply NoDup_lookup; [apply sorted_lt_NoDup, np_unique_sorted| |exact Hc].
    by apply searchsorted_lookup; [apply np_unique_sorted|].
Qed.

(** The columns of two encoders agree on every label exactly when they
    were fitted on the same set of labels. *)
Lemma column_of_agree y_train y_test :
  (∀ v, column_of y_test v = column_of y_train v)
  ↔ (∀ v, v ∈ y_train ↔ v ∈ y_test).
Proof.
  split.
  - intros Hcol v. by rewrite <- !column_of_Some, Hcol.
  - intros Hset v. unfold column_of.
    by rewrite (np_unique_ext y_test y_train).
Qed.

End Encoder.

(** ** Reasoning about runs *)

Section Runs.
Context `{B : Backend}.

Lemma post_ret {A} (a : A) w Q : Q (Ok a) w [] → post (mret a) w Q.
Proof. done. Qed.

Lemma post_bind {A C} (m : M A) (k : A → M C) w Q :
  post m w (λ r w1 evs,
    match r with
    | Ok a => post (k a) w1 (λ r' w2 evs', Q r' w2 (evs ++ evs'))
    | Raise e => Q (Raise e) w1 evs
    end) →
  post (m ≫= k) w Q.
Proof.
  unfold post, mbind, M_bind, bind. by destruct (result_of (m w)).
Qed.

Lemma post_invoke {A} c (f : world → result A * world) w Q :
  (∀ a w', f w = (Ok a, w') → Q (Ok a) w' [(c, Returned)]) →
  (∀ e w', f w = (Raise e, w') → Q (Raise e) w' [(c, Raised e)]) →
  post (invoke c f) w Q.
Proof.
  intros Hok Hfail. unfold post, invoke, result_of, world_of, calls_of. simpl.
  destruct (f w) as [[a|e] w'] eqn:Hf; simpl; auto.
Qed.

Lemma post_pure_call {A} c (r : result A) w Q :
  (∀ a, r = Ok a → Q (Ok a) w [(c, Returned)]) →
  (∀ e, r = Raise e → Q (Raise e) w [(c, Raised e)]) →
  post (pure_call c r) w Q.
Proof. intros Hok Hfail. destruct r; [by apply Hok|by apply Hfail]. Qed.

Lemma post_invoke_pair {A} c (r : world → result A) (g : world → world) w Q :
  (∀ a w', r w = Ok a → g w = w' → Q (Ok a) w' [(c, Returned)]) →
  (∀ e w', r w = Raise e → g w = w' → Q (Raise e) w' [(c, Raised e)]) →
  post (invoke c (λ w, (r w, g w))) w Q.
Proof.
  intros Hok Hfail. unfold post, invoke, result_of, world_of, calls_of. simpl.
  destruct (r w) as [a|e] eqn:Hr; simpl; eauto.
Qed.

Lemma Ok_eq {A} (a a' : A) : Ok a = Ok a' → a = a'.
Proof. by intros [= ->]. Qed.

Lemma Raise_eq {A} (e e' : exn) : @Raise A e = Raise e' → e = e'.
Proof. by intros [= ->]. Qed.

Lemma call_eq {A} (r r' : result A) (w w' : world) :
  (r, w) = (r', w') → r = r' ∧ w = w'.
Proof. by intros [= -> ->]. Qed.

Lemma post_run {A} (m : M A) w Q r w' evs :
  post m w Q → m w = (r, w', evs) → Q r w' evs.
Proof. unfold post. intros H Heq. by rewrite Heq in H. Qed.

Lemma post_complete (m : M ()) w (P : world → list event → Prop) :
  post m w (λ r w' evs, r = Ok () → P w' evs) →
  result_of (m w) = Ok () → P (world_of (m w)) (calls_of (m w)).
Proof. unfold post. auto. Qed.

Lemma post_mono {A} (m : M A) w (Q Q' : result A → world → list event → Prop) :
  post m w Q → (∀ r w' evs, Q r w' evs → Q' r w' evs) → post m w Q'.
Proof. unfold post. auto. Qed.

(** Two relative names give two paths. *)
Lemma path_join_relative_inj a p q :
  String.prefix "/" p = false → String.prefix "/" q = false →
  path_join a p = path_join a q → p = q.
Proof.
  unfold path_join. intros -> ->.
  case_bool_decide; [done|].
  destruct (ends_with_slash a); intros Heq.
  - by apply (inj (String.app a)) in Heq.
  - by apply (inj (String.app a)), (inj (String.app "/")) in Heq.
Qed.

(** The two ways [train_test_split] ends. *)
Lemma train_test_split_inv {A} (data : DataFrame A) test_size w r w' :
  (if decide (length (rows data) - ceil_mul test_size (length (rows data)) = 0)
   then (Raise (Exn "ValueError" "the resulting train set will be empty"), w)
   else
     let '(permutation, g) := rng_permutation (random w) (length (rows data)) in
     (Ok (take_rows data
            (take (length (rows data) - ceil_mul test_size (length (rows data)))
               (drop (ceil_mul test_size (length (rows data))) permutation)),
          take_rows data
            (take (ceil_mul test_size (length (rows data))) permutation)),
      set_random g w)) = (Ok r, w') →
  ceil_mul test_size (length (rows data)) < length (rows data)
  ∧ r.1 = take_rows data
           (take (length (rows data) - ceil_mul test_size (length (rows data)))
              (drop (ceil_mul test_size (length (rows data)))
                 (rng_permutation (random w) (length (rows data))).1))
  ∧ r.2 = take_rows data
           (take (ceil_mul test_size (length (rows data)))
              (rng_permutation (random w) (length (rows data))).1)
  ∧ set_random (rng_permutation (random w) (length (rows data))).2 w = w'.
Proof.
  case_decide as Hn; [done|].
  destruct (rng_permutation _ _) as [p g]. intros [= <- <-].
  split; [lia|done].
Qed.

Lemma train_test_split_inv_fail {A} (data : DataFrame A) test_size w e w' :
  (if decide (length (rows data) - ceil_mul test_size (length (rows data)) = 0)
   then (Raise (Exn "ValueError" "the resulting train set will be empty"), w)
   else
     let '(permutation, g) := rng_permutation (random w) (length (rows data)) in
     (Ok (take_rows data
            (take (length (rows data) - ceil_mul test_size (length (rows data)))
               (drop (ceil_mul test_size (length (rows data))) permutation)),
          take_rows data
            (take (ceil_mul test_size (length (rows data))) permutation)),
      set_random g w)) = (@Raise (DataFrame A * DataFrame A) e, w') →
  w = w'.
Proof.
  case_decide as Hn; [by intros [= _ <-]|].
  by destruct (rng_permutation _ _) as [p g].
Qed.

Lemma model_fit_inv m X Y epochs batch_size validation_split w r w' :
  match keras_fit m X Y epochs batch_size validation_split (random w) with
  | Ok (wts, h, g) =>
      (Ok (mkSequential (model_name m) (layers m) (compiled m) (Some wts), h),
       set_random g w)
  | Raise e => (Raise e, w)
  end = (Ok r, w') →
  ∃ wts h g,
    keras_fit m X Y epochs batch_size validation_split (random w) = Ok (wts, h, g)
    ∧ r = (mkSequential (model_name m) (layers m) (compiled m) (Some wts), h)
    ∧ set_random g w = w'.
Proof.
  destruct (keras_fit _ _ _ _ _ _ _) as [[[wts h] g]|e]; [|done].
  intros [= <- <-]. by eexists _, _, _.
Qed.

Lemma model_fit_inv_fail m X Y epochs batch_size validation_split w e w' :
  match keras_fit m X Y epochs batch_size validation_split (random w) with
  | Ok (wts, h, g) =>
      (Ok (mkSequential (model_name m) (layers m) (compiled m) (Some wts), h),
       set_random g w)
  | Raise e => (Raise e, w)
  end = (Raise e, w') →
  keras_fit m X Y epochs batch_size validation_split (random w) = Raise e
  ∧ w = w'.
Proof.
  destruct (keras_fit _ _ _ _ _ _ _) as [[[wts h] g]|e']; [done|].
  by intros [= <- <-].
Qed.

Lemma plt_plot_inv xs ys lw color label w (r : ()) w' :
  (if decide (length xs = length ys)
   then (Ok (), set_current_figure
                  (draw (Line2D xs ys lw color label) (current_figure w)) w)
   else (Raise (Exn "ValueError" "x and y must have same first dimension"), w))
  = (Ok r, w') →
  length xs = length ys
  ∧ set_current_figure
      (draw (Line2D xs ys lw color label) (current_figure w)) w = w'.
Proof. case_decide; [by intros [= _ <-]|done]. Qed.

Lemma plt_plot_inv_fail xs ys lw color label w e w' :
  (if decide (length xs = length ys)
   then (Ok (), set_current_figure
                  (draw (Line2D xs ys lw color label) (current_figure w)) w)
   else (Raise (Exn "ValueError" "x and y must have same first dimension"), w))
  = (Raise e, w') →
  length xs ≠ length ys ∧ w = w'.
Proof. case_decide; [done|by intros [= _ <-]]. Qed.

Lemma scaler_fit_transform_inv X (r : MinMaxScaler * matrix) :
  result_bind (minmax_fit X) (λ st,
    result_bind (minmax_transform st X) (λ X', Ok (mkScaler (Some st), X')))
  = Ok r →
  ∃ st, minmax_fit X = Ok st ∧ minmax_transform st X = Ok r.2
        ∧ r.1 = mkScaler (Some st).
Proof.
  destruct (minmax_fit X) as [st|] eqn:Hfit; [simpl|done].
  destruct (minmax_transform st X) as [X'|] eqn:Htransform; [simpl|done].
  intros Heq. apply Ok_eq in Heq. subst r. by exists st.
Qed.

(** [fit_transform] never meets an unknown category: it returns the rows
    with a one in the column of each label among the sorted distinct labels. *)
Lemma encoder_fit_transform_eq enc y :
  encoder_fit_transform enc y
  = (encoder_fit enc y, Ok (one_hot_encode (np_unique y) y)).
Proof.
  unfold encoder_fit_transform, encoder_transform. simpl.
  rewrite decide_True; [done|].
  apply Forall_forall. intros v Hv. by apply elem_of_np_unique.
Qed.

Lemma fit_transform_labels_inv enc y (r : OneHotEncoder * list (list nat)) :
  (let '(enc', r) := encoder_fit_transform enc y in
   result_bind r (λ Y, Ok (enc', Y))) = Ok r →
  r.1 = encoder_fit enc y ∧ r.2 = one_hot_encode (np_unique y) y.
Proof. rewrite encoder_fit_transform_eq. simpl. by intros [= <-]. Qed.

Lemma fit_transform_labels_inv_fail enc y e :
  (let '(enc', r) := encoder_fit_transform enc y in
   result_bind r (λ Y, Ok (enc', Y))) = Raise e → False.
Proof. rewrite encoder_fit_transform_eq. done. Qed.

(** A loop, by an invariant on the world and on the calls made so far. *)
Lemma post_for_each {A} (l : list A) (body : A → M ()) w
    (I : world → list event → Prop) (Q : result () → world → list event → Prop) :
  I w [] →
  (∀ x w0 evs0, x ∈ l → I w0 evs0 →
     post (body x) w0 (λ r w1 evs,
       match r with
       | Ok _ => I w1 (evs0 ++ evs)
       | Raise e => Q (Raise e) w1 (evs0 ++ evs)
       end)) →
  (∀ w1 evs, I w1 evs → Q (Ok ()) w1 evs) →
  post (for_each l body) w Q.
Proof.
  intros HI Hbody Hend.
  cut (∀ w evs0, I w evs0 →
         post (for_each l body) w (λ r w1 evs, Q r w1 (evs0 ++ evs))).
  { intros H. apply (H w [] HI). }
  clear w HI. induction l as [|x l IH]; intros w evs0 HI; simpl.
  - apply post_ret. rewrite app_nil_r. by apply Hend.
  - apply post_bind. eapply post_mono.
    { apply (Hbody x w evs0); [by left|done]. }
    intros [[]|e] w1 evs; simpl; [|done].
    intros HI1. eapply post_mono.
    { apply (IH (λ y w0 evs1 Hy, Hbody y w0 evs1 (list_elem_of_further _ _ _ Hy))
               w1 _ HI1). }
    intros r w2 evs2. by rewrite (assoc app).
Qed.

End Runs.

(** One step of a run: a bind, or a call with the two ways it can end.
    The value and the world a call leaves are kept as variables, with the
    equations that define them. *)
Ltac wp_head m :=
  lazymatch m with
  | ?f _ => wp_head f
  | _ => m
  end.

(** The world a call leaves, in terms of the fields of the first world. *)
Ltac world_fields_in H :=
  unfold abspath in H;
  cbn [argv cwd fs random stdout figures screen set_argv set_fs set_random
       set_stdout set_figures set_screen set_current_figure current_figure
       tail draw figsize artists app] in H.

Ltac subst_world Hw :=
  world_fields_in Hw;
  lazymatch type of Hw with
  | _ = ?y => first [is_var y; subst y | idtac]
  end.

(** What the equation of a returned value says. *)
Ltac inv_result H :=
  cbn [fitted categories_ sparse_output dtype] in H;
  lazymatch type of H with
  | Ok _ = Raise _ => discriminate H
  | Raise _ = Ok _ => discriminate H
  | Raise _ = Raise _ => apply Raise_eq in H
  | Ok _ = Ok _ =>
      apply Ok_eq in H;
      lazymatch type of H with
      | mkSequential _ _ _ _ = ?a =>
          cbn [model_name layers compiled trained app] in H; subst a
      | mkScaler _ = ?a => subst a
      | mkEncoder _ _ _ = ?a => subst a
      | _ = ?a =>
          first [ is_var a;
                  lazymatch type of a with
                  | string => subst a
                  | unit => subst a
                  end
                | idtac ]
      | _ => idtac
      end
  | result_bind (minmax_fit _) _ = Ok ?r =>
      let Hfit := fresh "Hminmax" in
      let Hr := fresh "Hscaler" in
      apply scaler_fit_transform_inv in H as (? & Hfit & H & Hr);
      destruct r; cbn [fst snd] in H, Hr;
      lazymatch type of Hr with ?v = _ => subst v end
  | (let '(_, _) := encoder_fit_transform _ _ in _) = Ok ?r =>
      let Hr := fresh "Hencoder" in
      apply fit_transform_labels_inv in H as (Hr & H);
      destruct r; cbn [fst snd] in H, Hr;
      lazymatch type of Hr with ?v = _ => subst v end;
      lazymatch type of H with ?v = _ => subst v end
  | (let '(_, _) := encoder_fit_transform _ _ in _) = Raise _ =>
      destruct (fit_transform_labels_inv_fail _ _ _ H)
  | _ => idtac
  end.

(** What the equation of a call says of its value and of the world. *)
Ltac inv_call H :=
  cbv beta in H;
  lazymatch type of H with
  | match keras_fit _ _ _ _ _ _ _ with _ => _ end = (Ok ?r, _) =>
      let Hr := fresh "Hfitted" in
      let Hw := fresh "Hworld" in
      apply model_fit_inv in H as (? & ? & ? & H & Hr & Hw);
      cbn [model_name layers compiled trained app] in Hr;
      first [subst r | idtac]; world_fields_in H; subst_world Hw
  | match keras_fit _ _ _ _ _ _ _ with _ => _ end = (Raise _, _) =>
      let Hw := fresh "Hworld" in
      apply model_fit_inv_fail in H as (H & Hw); world_fields_in H;
      subst_world Hw
  | (if decide (_ - _ = 0) then _ else _) = (Ok ?r, _) =>
      let Hn := fresh "Hsizes" in
      let Htrain := fresh "Htrain" in
      let Htest := fresh "Htest" in
      let Hw := fresh "Hworld" in
      apply train_test_split_inv in H as (Hn & Htrain & Htest & Hw);
      destruct r; cbn [fst snd] in Htrain, Htest;
      world_fields_in Hn; world_fields_in Htrain; world_fields_in Htest;
      subst_world Hw
  | (if decide (_ - _ = 0) then _ else _) = (Raise _, _) =>
      apply train_test_split_inv_fail in H; subst_world H
  | (if decide (length _ = length _) then _ else _) = (Ok _, _) =>
      let Hw := fresh "Hworld" in
      apply plt_plot_inv in H as (H & Hw); subst_world Hw
  | (if decide (length _ = length _) then _ else _) = (Raise _, _) =>
      let Hw := fresh "Hworld" in
      apply plt_plot_inv_fail in H as (H & Hw); subst_world Hw
  | (_, _) = (_, _) =>
      let Hw := fresh "Hworld" in
      apply call_eq in H as [H Hw]; subst_world Hw; world_fields_in H;
      inv_result H
  | _ => idtac
  end.

Ltac wp_step :=
  lazymatch goal with
  | |- post (mbind _ _) _ _ => apply post_bind
  | |- post (mret _) _ _ => apply post_ret
  | |- post (pure_call _ _) _ _ =>
      let H := fresh "Hcall" in
      apply post_pure_call; intros ? H; inv_result H; cbv beta iota
  | |- post (invoke _ (λ _, (_, _))) _ _ =>
      let H := fresh "Hcall" in
      let Hw := fresh "Hworld" in
      apply post_invoke_pair; intros ? ? H Hw; cbv beta in H, Hw;
      subst_world Hw; world_fields_in H; inv_result H; cbv beta iota
  | |- post (invoke _ _) _ _ =>
      let H := fresh "Hcall" in
      apply post_invoke; intros ? ? H; inv_call H; cbv beta iota
  | |- post (for_each _ _) _ _ => fail "loop"
  | |- post (let '(_, _) := ?x in _) _ _ => destruct x
  | |- post ?m _ _ => let h := wp_head m in unfold h
  end.

Ltac wp := repeat wp_step.

(** ** The two reporting loops *)

Section Loops.
Context `{B : Backend}.

Lemma set_stdout_id w : w = set_stdout (stdout w) w.
Proof. by destruct w. Qed.

Lemma set_stdout_twice o o' w : set_stdout o' (set_stdout o w) = set_stdout o' w.
Proof. done. Qed.

(** The loop that prints the predicted labels of the cardiotocographic
    script: it only indexes [labels] and prints; it ends early exactly on an
    index that [labels] does not have. *)
Lemma print_labels_post (predicted : list nat) w :
  post (for_each predicted (λ prediction,
          label ← getitem labels prediction; print label)) w
    (λ r w1 evs,
       (∃ out, w1 = set_stdout out w)
       ∧ Forall (label_event labels predicted) evs
       ∧ ∀ e, r = Raise e →
           ∃ evs0 i, i ∈ predicted ∧ length labels ≤ i
             ∧ evs = evs0 ++ [(call_getitem (inl i), Raised e)]).
Proof.
  apply (post_for_each _ _ _ (λ w1 evs,
    (∃ out, w1 = set_stdout out w) ∧ Forall (label_event labels predicted) evs)).
  - split; [eexists; apply set_stdout_id|constructor].
  - intros x w0 evs0 Hx ((out & ->) & Hevs). wp.
    + destruct (labels !! x) as [lbl|] eqn:Hl; [|done].
      apply lookup_lt_Some in Hl.
      split; [by eexists|].
      rewrite !Forall_app, !Forall_singleton. split; [done|].
      split; [left; exists x; by repeat split|right; eauto].
    + destruct (labels !! x) as [lbl|] eqn:Hl; [done|].
      apply lookup_ge_None in Hl. split; [by eexists|]. split.
      * rewrite !Forall_app, !Forall_singleton. split; [done|].
        left. exists x. split; [done|]. split; [done|].
        split; [done|]. cbn [snd]. intros. lia.
      * intros e' He. apply Raise_eq in He. subst e'. eauto 10.
  - intros w1 evs (Hw & Hevs). split; [done|]. split; [done|].
    intros e He. discriminate He.
Qed.

(** The loop that prints the diagnoses of the diabetes script: it only
    takes the truth value of [prediction > .5] and prints. *)
Lemma print_diagnoses_post (predictions : matrix) w :
  post (for_each predictions (λ prediction : list scalar,
          diabetic ← truth ((λ p, float_gt p (float (Q2Qc (5 # 10)))) <$> prediction);
          print (if diabetic : bool then "Person have got diabetes..."
                 else "Person is healthy..."))) w
    (λ r w1 evs,
       (∃ out, w1 = set_stdout out w)
       ∧ Forall (diagnosis_event predictions) evs
       ∧ ∀ e, r = Raise e →
           ∃ evs0 row, row ∈ predictions ∧ length row ≠ 1
             ∧ evs = evs0 ++ [(call_truth, Raised e)]).
Proof.
  apply (post_for_each _ _ _ (λ w1 evs,
    (∃ out, w1 = set_stdout out w) ∧ Forall (diagnosis_event predictions) evs)).
  - split; [eexists; apply set_stdout_id|constructor].
  - intros x w0 evs0 Hx ((out & ->) & Hevs). wp.
    + split; [by eexists|].
      rewrite !Forall_app, !Forall_singleton. split; [done|].
      split; [left|right]; eauto.
    + assert (length x ≠ 1) as Hlen.
      { destruct x as [|? [|? ?]]; simpl in *; done. }
      split; [by eexists|]. split.
      * rewrite !Forall_app, !Forall_singleton. split; [done|]. left. eauto.
      * intros e' He. apply Raise_eq in He. subst e'. eauto 10.
  - intros w1 evs (Hw & Hevs). split; [done|]. split; [done|].
    intros e He. discriminate He.
Qed.

(** What these loops call is none of the calls a projection of the log
    looks for. *)
Lemma omap_labels {X} (f : event → option X) predicted evs :
  (∀ k o, f (call_getitem k, o) = None) → (∀ s o, f (call_print s, o) = None) →
  Forall (label_event labels predicted) evs → omap f evs = [].
Proof.
  intros Hget Hprint. induction 1 as [|[c o] evs Hev _ IH]; [done|].
  destruct Hev as [(i & _ & Hc & _)|(s & Hc)]; simpl in Hc.
  - subst c. simpl. by rewrite Hget.
  - injection Hc as -> ->. simpl. by rewrite Hprint.
Qed.

Lemma omap_diagnoses {X} (f : event → option X) predictions evs :
  (∀ o, f (call_truth, o) = None) → (∀ s o, f (call_print s, o) = None) →
  Forall (diagnosis_event predictions) evs → omap f evs = [].
Proof.
  intros Htruth Hprint. induction 1 as [|[c o] evs Hev _ IH]; [done|].
  destruct Hev as [(i & _ & Hc)|(s & Hc)]; simpl in Hc.
  - subst c. simpl. by rewrite Htruth.
  - injection Hc as -> ->. simpl. by rewrite Hprint.
Qed.

End Loops.

Ltac wp_loop :=
  lazymatch goal with
  | |- post (for_each _ _) _ _ =>
      let Hsame := fresh "Hsame" in
      let Hloop := fresh "Hloop" in
      let Hend := fresh "Hend" in
      eapply post_mono;
      [ first [apply print_labels_post | apply print_diagnoses_post]
      | intros [[]|?] ? ? ((? & Hsame) & Hloop & Hend);
        world_fields_in Hsame;
        lazymatch type of Hsame with ?v = _ => subst v end;
        cbv beta iota ]
  end.

Ltac run := repeat first [wp_step | wp_loop].

(** A projection of the log of a run, computed. *)
Ltac project_log :=
  repeat first
    [ progress simpl
    | rewrite omap_app
    | erewrite omap_labels by first [eassumption | done]
    | erewrite omap_diagnoses by first [eassumption | done] ].

(** ** C2: the architecture of the models *)

Section Architecture.
Context `{B : Backend}.

Lemma models_of_app evs1 evs2 :
  models_of (evs1 ++ evs2) = models_of evs1 ++ models_of evs2.
Proof. unfold models_of. apply omap_app. Qed.

Lemma models_of_labels predicted evs :
  Forall (label_event labels predicted) evs → models_of evs = [].
Proof. by apply omap_labels. Qed.

Lemma models_of_diagnoses predictions evs :
  Forall (diagnosis_event predictions) evs → models_of evs = [].
Proof. by apply omap_diagnoses. Qed.

Lemma two_hidden_relu64_intro k act d1 d2 n1 n2 n3 :
  two_hidden_relu64 k act
    [mkDense 64 "relu" d1 n1; mkDense 64 "relu" d2 n2; mkDense k act None n3].
Proof. eexists _, _, _. by repeat split. Qed.

(** C2. Every model of either script has exactly two hidden dense layers of
    64 ReLU units followed by one output layer and nothing else: what
    [create_cardiotocographic_model] returns (softmax, [num_categories]
    units), every model [main] hands to [fit], [evaluate] or [predict]
    (softmax, [len(labels)] units), and every model the diabetes script
    hands to them (sigmoid, one unit). *)
Theorem C2_two_hidden_layers :
  (∀ input_dim num_categories name w,
     ∃ m, result_of (create_cardiotocographic_model input_dim num_categories
                       name w) = Ok m
          ∧ two_hidden_relu64 num_categories "softmax" (layers m))
  ∧ (∀ w, Forall (λ m, two_hidden_relu64 (length labels) "softmax" (layers m))
            (models_of (calls_of (main w))))
  ∧ (∀ w, Forall (λ m, two_hidden_relu64 1 "sigmoid" (layers m))
            (models_of (calls_of (keras_predictor w)))).
Proof.
  split; [|split].
  - intros input_dim k name w.
    change (post (create_cardiotocographic_model input_dim k name) w
              (λ r _ _, ∃ m, r = Ok m ∧ two_hidden_relu64 k "softmax" (layers m))).
    run. eexists; split; [done|]. apply two_hidden_relu64_intro.
  - intros w.
    change (post main w (λ _ _ evs,
      Forall (λ m, two_hidden_relu64 (length labels) "softmax" (layers m))
        (models_of evs))).
    run.
    all: simpl; rewrite ?models_of_app, ?(models_of_labels _ _ Hloop); simpl.
    all: repeat constructor; apply two_hidden_relu64_intro.
  - intros w.
    change (post keras_predictor w (λ _ _ evs,
      Forall (λ m, two_hidden_relu64 1 "sigmoid" (layers m)) (models_of evs))).
    run.
    all: simpl; rewrite ?models_of_app, ?(models_of_diagnoses _ _ Hloop); simpl.
    all: repeat constructor; apply two_hidden_relu64_intro.
Qed.

End Architecture.

(** A call among the calls of a run. *)
Ltac find_event :=
  simpl;
  repeat first
    [ apply list_elem_of_here
    | apply list_elem_of_further
    | apply elem_of_app; right ].


(** The fields of the world a run ends in. *)
Ltac world_fields :=
  unfold abspath;
  cbn [argv cwd fs random stdout figures screen set_argv set_fs set_random
       set_stdout set_figures set_screen set_current_figure current_figure
       tail draw figsize artists app].

(** Two relative names give two paths. *)
Ltac path_ne :=
  let Heq := fresh in
  intros Heq; apply path_join_relative_inj in Heq;
  [discriminate Heq|reflexivity|reflexivity].

(** A file written by a run, among the later writes. *)
Ltac lookup_fs :=
  repeat first
    [ rewrite lookup_insert_eq; reflexivity
    | rewrite lookup_insert_ne by path_ne ].

(** ** C1: what the scripts write *)

Section Files.
Context `{B : Backend}.

Lemma saves_of_labels predicted evs :
  Forall (label_event labels predicted) evs →
  Forall (λ ev : event, is_save ev.1 = false) evs.
Proof.
  intros H. eapply Forall_impl; [exact H|].
  intros [c o] [(i & _ & Hc & _)|(s & Hc)]; simpl in *.
  - by subst c.
  - by injection Hc as -> _.
Qed.

Lemma saves_of_diagnoses predictions evs :
  Forall (diagnosis_event predictions) evs →
  Forall (λ ev : event, is_save ev.1 = false) evs.
Proof.
  intros H. eapply Forall_impl; [exact H|].
  intros [c o] [(i & _ & Hc)|(s & Hc)]; simpl in *.
  - by subst c.
  - by injection Hc as -> _.
Qed.

(** The diabetes script writes no file and saves nothing, however far the
    run gets. *)
Lemma keras_predictor_writes_nothing w :
  fs (world_of (keras_predictor w)) = fs w
  ∧ Forall (λ ev : event, is_save ev.1 = false) (calls_of (keras_predictor w)).
Proof.
  change (post keras_predictor w (λ _ w' evs,
    fs w' = fs w ∧ Forall (λ ev : event, is_save ev.1 = false) evs)).
  run.
  all: split; [reflexivity|].
  all: simpl; repeat first
         [ apply Forall_nil_2
         | apply Forall_cons_2; [reflexivity|]
         | apply Forall_app_2; [by eapply saves_of_diagnoses|]
         | by eapply saves_of_diagnoses ].
Qed.

(** A complete run of the cardiotocographic script leaves the fitted model
    and the fitted scaler in two files of the working directory. *)
Lemma main_files w :
  result_of (main w) = Ok () →
  ∃ m s,
    (call_save "cardiotocographic-predictor.h5", Returned) ∈ calls_of (main w)
    ∧ fs (world_of (main w)) !! abspath w "cardiotocographic-predictor.h5"
      = Some (H5File m)
    ∧ is_Some (trained m)
    ∧ (call_open "cardiotocographic.pickle", Returned) ∈ calls_of (main w)
    ∧ (call_pickle_dump, Returned) ∈ calls_of (main w)
    ∧ fs (world_of (main w)) !! abspath w "cardiotocographic.pickle"
      = Some (PickleFile s)
    ∧ is_Some (fitted s).
Proof.
  apply (post_complete main w (λ w' evs, ∃ m s,
    (call_save "cardiotocographic-predictor.h5", Returned) ∈ evs
    ∧ fs w' !! abspath w "cardiotocographic-predictor.h5" = Some (H5File m)
    ∧ is_Some (trained m)
    ∧ (call_open "cardiotocographic.pickle", Returned) ∈ evs
    ∧ (call_pickle_dump, Returned) ∈ evs
    ∧ fs w' !! abspath w "cardiotocographic.pickle" = Some (PickleFile s)
    ∧ is_Some (fitted s))).
  run.
  all: try (intros ?; discriminate).
  intros _. eexists _, _. split_and!.
  - find_event.
  - world_fields. simpl String.app. lookup_fs.
  - by eexists.
  - find_event.
  - find_event.
  - world_fields. simpl String.app. lookup_fs.
  - by eexists.
Qed.

(** C1, as the code has it. A complete run of the cardiotocographic script
    saves the fitted model to [cardiotocographic-predictor.h5] and the fitted
    scaler to [cardiotocographic.pickle], and both files are there when it
    ends. The diabetes script has no scaler, never saves and leaves the file
    system as it found it. *)
Theorem C1_files_written :
  (∀ w, result_of (main w) = Ok () →
     ∃ m s,
       (call_save "cardiotocographic-predictor.h5", Returned) ∈ calls_of (main w)
       ∧ fs (world_of (main w)) !! abspath w "cardiotocographic-predictor.h5"
         = Some (H5File m)
       ∧ is_Some (trained m)
       ∧ (call_open "cardiotocographic.pickle", Returned) ∈ calls_of (main w)
       ∧ (call_pickle_dump, Returned) ∈ calls_of (main w)
       ∧ fs (world_of (main w)) !! abspath w "cardiotocographic.pickle"
         = Some (PickleFile s)
       ∧ is_Some (fitted s))
  ∧ (∀ w, fs (world_of (keras_predictor w)) = fs w
          ∧ Forall (λ ev : event, is_save ev.1 = false)
              (calls_of (keras_predictor w))).
Proof. split; [apply main_files|apply keras_predictor_writes_nothing]. Qed.

End Files.

(** ** C7 and C10: the one-hot encoding of the labels *)

Section Encoding.
Context `{B : Backend}.

Lemma main_encodings w :
  evaluate_inputs (calls_of (main w)) = []
  ∨ ∃ y_train y_test X_train X_test,
      encoder_fits (calls_of (main w)) = [y_train; y_test]
      ∧ fit_inputs (calls_of (main w))
        = [(X_train, uint8_array (one_hot_encode (np_unique y_train) y_train))]
      ∧ evaluate_inputs (calls_of (main w))
        = [(X_test, uint8_array (one_hot_encode (np_unique y_test) y_test))].
Proof.
  change (post main w (λ _ _ evs,
    evaluate_inputs evs = []
    ∨ ∃ y_train y_test X_train X_test,
        encoder_fits evs = [y_train; y_test]
        ∧ fit_inputs evs
          = [(X_train, uint8_array (one_hot_encode (np_unique y_train) y_train))]
        ∧ evaluate_inputs evs
          = [(X_test, uint8_array (one_hot_encode (np_unique y_test) y_test))])).
  run.
  all: unfold evaluate_inputs, fit_inputs, encoder_fits; project_log.
  all: try by left.
  all: right; eexists _, _, _, _; repeat split; reflexivity.
Qed.

Lemma main_one_hot w :
  Forall (λ XY : matrix * matrix, ∃ Y, XY.2 = uint8_array Y ∧ Forall one_hot Y)
    (fit_inputs (calls_of (main w)) ++ evaluate_inputs (calls_of (main w))).
Proof.
  change (post main w (λ _ _ evs,
    Forall (λ XY : matrix * matrix, ∃ Y, XY.2 = uint8_array Y ∧ Forall one_hot Y)
      (fit_inputs evs ++ evaluate_inputs evs))).
  run.
  all: unfold evaluate_inputs, fit_inputs; project_log.
  all: repeat constructor.
  all: eexists; split; [reflexivity|apply one_hot_encode_fitted].
Qed.

(** C7. After one-hot encoding in the cardiotocographic script every row
    of the encoded [y_train] and [y_test] is a binary vector with exactly
    one set bit: [fit_transform] never fails, gives one such row per label,
    and the label arrays that [main] hands to [fit] and to [evaluate] are
    made of such rows. *)
Theorem C7_one_hot_rows :
  (∀ enc y, ∃ Y, (encoder_fit_transform enc y).2 = Ok Y
                 ∧ length Y = length y ∧ Forall one_hot Y)
  ∧ (∀ w, Forall (λ XY : matrix * matrix,
                    ∃ Y, XY.2 = uint8_array Y ∧ Forall one_hot Y)
            (fit_inputs (calls_of (main w))
             ++ evaluate_inputs (calls_of (main w)))).
Proof.
  split; [|apply main_one_hot].
  intros enc y. rewrite encoder_fit_transform_eq. eexists. split; [done|].
  split; [apply length_fmap|apply one_hot_encode_fitted].
Qed.

(** The rows of an encoding: each label has a one in its column, in a row
    as wide as there are distinct labels. *)
Lemma one_hot_encode_rows y :
  Forall2 (λ v row, ∃ c, column_of y v = Some c
                         ∧ row = one_hot_row (length (np_unique y)) c)
    y (one_hot_encode (np_unique y) y).
Proof.
  unfold one_hot_encode. apply Forall2_fmap_r, Forall_Forall2_diag.
  apply Forall_forall. intros v Hv. eexists. split; [|reflexivity].
  unfold column_of. rewrite decide_True; [done|]. by apply elem_of_np_unique.
Qed.

(** Fitting afresh on [y_test] gives what the encoder fitted on [y_train]
    gives of [y_test] exactly when the two columns have the same labels. *)
Lemma refit_iff_same_labels enc y_train y_test :
  y_test ≠ [] →
  (encoder_fit_transform (encoder_fit enc y_train) y_test).2
  = encoder_transform (encoder_fit enc y_train) y_test
  ↔ (∀ v, v ∈ y_train ↔ v ∈ y_test).
Proof.
  intros Hne. rewrite encoder_fit_transform_eq.
  unfold encoder_transform. cbn [snd encoder_fit categories_]. split.
  - case_decide as Hknown; [|done]. intros Heq. apply Ok_eq in Heq.
    rewrite Forall_forall in Hknown.
    assert (length (np_unique y_test) = length (np_unique y_train)) as Hlen.
    { destruct y_test as [|v0 y_test]; [done|]. simpl in Heq.
      injection Heq as Hrow _.
      apply (f_equal length) in Hrow. by rewrite !one_hot_row_length in Hrow. }
    assert (np_unique y_test ≡ₚ np_unique y_train) as Hperm.
    { apply submseteq_length_Permutation; [|lia].
      apply NoDup_submseteq; [apply sorted_lt_NoDup, np_unique_sorted|].
      intros v Hv. apply Hknown. by apply elem_of_np_unique. }
    intros v. rewrite <- (elem_of_np_unique v y_train),
      <- (elem_of_np_unique v y_test). by rewrite Hperm.
  - intros Hset. rewrite (np_unique_ext y_train y_test Hset).
    rewrite decide_True; [done|].
    apply Forall_forall. intros v Hv. by apply elem_of_np_unique.
Qed.

(** C10, as the code has it. In the cardiotocographic script the encoder
    is fitted a first time on [y_train] and a second time on [y_test], and
    the labels handed to [evaluate] are encoded with the categories of
    [y_test]. The column of a label is its position among the sorted
    distinct labels of the column the encoder was fitted on, and the row of
    a label has its one in that column. With the same set of labels in
    [y_train] and [y_test] every label has the same column in both
    encodings; the converse does not hold. What holds both ways, for a
    [y_test] that is not empty: fitting afresh on [y_test] gives the array
    that the encoder fitted on [y_train] gives of [y_test] exactly when the
    two sets of labels are equal. *)
Theorem C10_encoder_refit :
  (∀ w, evaluate_inputs (calls_of (main w)) = []
        ∨ ∃ y_train y_test X_train X_test,
            encoder_fits (calls_of (main w)) = [y_train; y_test]
            ∧ fit_inputs (calls_of (main w))
              = [(X_train,
                  uint8_array (one_hot_encode (np_unique y_train) y_train))]
            ∧ evaluate_inputs (calls_of (main w))
              = [(X_test,
                  uint8_array (one_hot_encode (np_unique y_test) y_test))])
  ∧ (∀ y v c, column_of y v = Some c ↔ np_unique y !! c = Some v)
  ∧ (∀ y, Forall2 (λ v row, ∃ c, column_of y v = Some c
                                 ∧ row = one_hot_row (length (np_unique y)) c)
            y (one_hot_encode (np_unique y) y))
  ∧ (∀ y_train y_test,
       (∀ v, v ∈ y_train ↔ v ∈ y_test) →
       ∀ v, column_of y_test v = column_of y_train v)
  ∧ (∀ enc y_train y_test,
       y_test ≠ [] →
       (encoder_fit_transform (encoder_fit enc y_train) y_test).2
       = encoder_transform (encoder_fit enc y_train) y_test
       ↔ (∀ v, v ∈ y_train ↔ v ∈ y_test)).
Proof.
  split; [apply main_encodings|]. split; [apply column_of_lookup|].
  split; [apply one_hot_encode_rows|].
  split; [intros y_train y_test; apply column_of_agree|].
  apply refit_iff_same_labels.
Qed.

End Encoding.

(** Fitted on the labels 1, 2 and again on 2, 1, 1, the encoder gives the
    same rows as by transforming. *)
Lemma C10_encoder_refit_witness :
  (encoder_fit_transform
     (encoder_fit (mkEncoder false "uint8" None) [1%Qc; Q2Qc 2])
     [Q2Qc 2; 1%Qc; 1%Qc]).2
  = encoder_transform
      (encoder_fit (mkEncoder false "uint8" None) [1%Qc; Q2Qc 2])
      [Q2Qc 2; 1%Qc; 1%Qc].
Proof.
  apply (proj2 (proj2 (proj2 (proj2 (C10_encoder_refit (B:=toy)))))).
  - discriminate.
  - intros v. rewrite !elem_of_cons, !elem_of_nil. tauto.
Defined.

(** With the labels 1, 2, 3, 1 in [y_train] and 1, 2 in [y_test], each
    label of [y_test] has the same column in both encodings, and the sets
    of labels differ: C10 as the specification states it does not hold. *)
Lemma C10_counterexample : ¬ same_columns_iff_same_labels.
Proof.
  intros Hclaim.
  destruct (Hclaim [1%Qc; Q2Qc 2; Q2Qc 3; 1%Qc] [1%Qc; Q2Qc 2]) as [Hsame _].
  assert (Q2Qc 3 ∈ [1%Qc; Q2Qc 2]) as Hin.
  { apply Hsame; [|rewrite !elem_of_cons; tauto].
    intros v Hv. rewrite !elem_of_cons, elem_of_nil in Hv.
    destruct Hv as [->|[->|[]]]; vm_compute; reflexivity. }
  rewrite !elem_of_cons, elem_of_nil in Hin.
  destruct Hin as [Hin|[Hin|[]]]; discriminate Hin.
Qed.

(** ** C9: the index of the printed label *)

Section Labels.
Context `{B : Backend}.

Lemma argmax_from_lt best besti i l :
  besti < i → argmax_from best besti i l < i + length l.
Proof.
  revert best besti i. induction l as [|x l IH]; intros best besti i Hi; simpl.
  - lia.
  - destruct (float_gt x best).
    + specialize (IH x i (S i)). lia.
    + specialize (IH best besti (S i)). lia.
Qed.

(** [argmax] of a row is a position of the row. *)
Lemma argmax_lt row i : argmax row = Ok i → i < length row.
Proof.
  destruct row as [|x l]; [done|]. simpl. intros Hi. apply Ok_eq in Hi.
  subst i. pose proof (argmax_from_lt x 0 1 l). lia.
Qed.

Lemma argmax_rows_lt k P predicted :
  Forall (λ row, length row = k) P → result_mapM argmax P = Ok predicted →
  Forall (λ i, i < k) predicted.
Proof.
  intros HP. revert predicted.
  induction HP as [|row P Hrow _ IH]; intros predicted; simpl.
  - intros Heq. apply Ok_eq in Heq. subst. constructor.
  - destruct (argmax row) as [i|] eqn:Hi; [simpl|done].
    destruct (result_mapM argmax P) as [idxs|]; [simpl|done].
    intros Heq. apply Ok_eq in Heq. subst predicted.
    constructor; [|by apply IH]. apply argmax_lt in Hi. lia.
Qed.

(** With every predicted index in range the loop never fails to index. *)
Lemma labels_in_range predicted evs :
  Forall (λ i, i < length labels) predicted →
  Forall (label_event labels predicted) evs →
  Forall (λ ev : event,
            ∀ i, ev.1 = call_getitem (inl i) → i < length labels ∧ ev.2 = Returned)
    evs.
Proof.
  intros Hlt Hevs. eapply Forall_impl; [exact Hevs|].
  intros [c o] [(j & Hj & Hc & Ho)|(s & Hc)] i; simpl in *.
  - subst c. intros Hi. injection Hi as <-.
    rewrite Forall_forall in Hlt. specialize (Hlt _ Hj). tauto.
  - by injection Hc as -> _.
Qed.

(** C9. In the cardiotocographic script the output layer has
    [len(labels)] = 3 units, so, given that a Keras prediction has one entry
    per output unit, every index that [argmax] gives lies in 0, 1, 2 and
    [labels[prediction]] never goes out of bounds. *)
Theorem C9_label_index_in_range :
  predict_contract →
  ∀ w, Forall (λ ev : event,
                 ∀ i, ev.1 = call_getitem (inl i) →
                      i < 3 ∧ i < length labels ∧ ev.2 = Returned)
         (calls_of (main w)).
Proof.
  intros Hpredict w.
  change (post main w (λ _ _ evs,
    Forall (λ ev : event,
              ∀ i, ev.1 = call_getitem (inl i) →
                   i < 3 ∧ i < length labels ∧ ev.2 = Returned) evs)).
  run.
  all: try match goal with
           | H : result_mapM argmax ?P = Ok ?predicted,
             HP : keras_predict _ _ = Ok ?P,
             HL : Forall (label_event labels ?predicted) _ |- _ =>
               apply Hpredict in HP; simpl in HP;
               apply (argmax_rows_lt 3) in H;
               [ apply (labels_in_range _ _ H) in HL
               | eapply Forall_impl; [exact HP|];
                 by intros row [= ->] ]
           end.
  all: simpl; repeat first
         [ apply Forall_nil_2
         | apply Forall_cons_2; [by intros ? [=]|]
         | apply Forall_app_2;
             [ eapply Forall_impl; [eassumption|];
               simpl; intros ? Hev i Hi; destruct (Hev i Hi); auto |]
         | eapply Forall_impl; [eassumption|];
           simpl; intros ? Hev i Hi; destruct (Hev i Hi); auto ].
Qed.

End Labels.

Lemma toy_predict_contract : predict_contract (B:=toy).
Proof.
  intros m X P HP. change (toy_predict m X = Ok P) in HP.
  unfold toy_predict in HP. simpl in *.
  destruct (last (layers m)) as [l|] eqn:Hl; [|discriminate HP].
  apply Ok_eq in HP. subst P.
  apply Forall_fmap, Forall_forall. intros row _. simpl.
  by rewrite length_replicate.
Qed.

Lemma C9_label_index_in_range_witness :
  Forall (λ ev : event,
            ∀ i, ev.1 = call_getitem (inl i) →
                 i < 3 ∧ i < length labels ∧ ev.2 = Returned)
    (calls_of (main (toy_world_ctg 0 []))).
Proof. exact (C9_label_index_in_range toy_predict_contract _). Defined.

(** ** C3: the order of the steps *)

Section Order.
Context `{B : Backend}.










End Order.




(** The diabetes script, run to its end on a small data set, saves no
    model: C1 as the specification states it does not hold. *)
Lemma C1_counterexample : ¬ serializes_model_and_scaler (B:=toy) keras_predictor.
Proof.
  intros Hclaim.
  destruct (Hclaim (toy_world_diabetes 0 [])) as [(p & m & Hsave & _) _].
  { vm_compute. reflexivity. }
  destruct (keras_predictor_writes_nothing (toy_world_diabetes 0 [])) as [_ Hno].
  rewrite Forall_forall in Hno. by apply Hno in Hsave.
Qed.

Lemma C1_files_written_witness :
  ∃ m s,
    fs (world_of (main (toy_world_ctg 0 [])))
      !! "/home/user/cardiotocographic-predictor.h5" = Some (H5File m)
    ∧ is_Some (trained m)
    ∧ fs (world_of (main (toy_world_ctg 0 [])))
      !! "/home/user/cardiotocographic.pickle" = Some (PickleFile s)
    ∧ is_Some (fitted s).
Proof.
  destruct (proj1 (C1_files_written (B:=toy)) (toy_world_ctg 0 []))
    as (m & s & _ & Hm & Hfit & _ & _ & Hs & Hfitted).
  { vm_compute. reflexivity. }
  exists m, s. split_and!; assumption.
Defined.

(** ** C5: exceptions are not handled *)

Section Propagation.
Context `{B : Backend}.

Lemma propagates_ret {A} (a : A) : propagates (mret a).
Proof. intros w. simpl. constructor. Qed.

Lemma propagates_invoke {A} c (f : world → result A * world) :
  propagates (invoke c f).
Proof.
  intros w. unfold invoke, result_of, calls_of. simpl.
  destruct (f w).1 as [a|e]; simpl.
  - by repeat constructor.
  - exists [], c. by split; [|constructor].
Qed.

Lemma propagates_bind {A C} (m : M A) (k : A → M C) :
  propagates m → (∀ a, propagates (k a)) → propagates (m ≫= k).
Proof.
  intros Hm Hk w. specialize (Hm w).
  unfold mbind, M_bind, bind.
  destruct (result_of (m w)) as [a|e] eqn:Hr; simpl.
  - specialize (Hk a (world_of (m w))).
    unfold result_of, calls_of in *. simpl.
    destruct (k a (world_of (m w))).1.1 as [b|e].
    + by apply Forall_app_2.
    + destruct Hk as (evs & c & -> & Hevs). exists (calls_of (m w) ++ evs), c.
      split; [by rewrite (assoc app)|by apply Forall_app_2].
  - done.
Qed.

Lemma propagates_for_each {A} (l : list A) (body : A → M ()) :
  (∀ x, propagates (body x)) → propagates (for_each l body).
Proof.
  intros Hbody. induction l as [|x l IH]; simpl.
  - apply propagates_ret.
  - apply propagates_bind; auto.
Qed.

Ltac propagation_step :=
  lazymatch goal with
  | |- propagates (mbind _ _) => apply propagates_bind; [|intros ?]
  | |- propagates (mret _) => apply propagates_ret
  | |- propagates (invoke _ _) => apply propagates_invoke
  | |- propagates (pure_call _ _) => apply propagates_invoke
  | |- propagates (for_each _ _) => apply propagates_for_each; intros ?
  | |- propagates (let '(_, _) := ?x in _) => destruct x
  | |- propagates ?m => let h := wp_head m in unfold h
  end.

Ltac propagation := repeat propagation_step.

Lemma main_propagates : propagates main.
Proof. propagation. Qed.

Lemma keras_predictor_propagates : propagates keras_predictor.
Proof. propagation. Qed.

Lemma propagates_raised {A} (m : M A) w c e :
  propagates m → (c, Raised e) ∈ calls_of (m w) →
  result_of (m w) = Raise e ∧ last (calls_of (m w)) = Some (c, Raised e).
Proof.
  intros Hm Hin. specialize (Hm w).
  destruct (result_of (m w)) as [a|e'].
  - rewrite Forall_forall in Hm. by apply Hm in Hin.
  - destruct Hm as (evs & c' & Heq & Hevs). rewrite Heq in Hin |- *.
    apply elem_of_app in Hin as [Hin|Hin].
    + rewrite Forall_forall in Hevs. by apply Hevs in Hin.
    + apply list_elem_of_singleton in Hin. injection Hin as -> ->.
      by rewrite last_snoc.
Qed.

End Propagation.

(** C5. Neither script handles an exception. In every run of either
    script, a call that raises is the last call of the run and the run ends
    with the exception of that call, unchanged; and a run ends with an
    exception only in this way, every call before the last having
    returned. *)
Theorem C5_exceptions_propagate `{B : Backend} :
  (propagates main
   ∧ ∀ w c e, (c, Raised e) ∈ calls_of (main w) →
       result_of (main w) = Raise e
       ∧ last (calls_of (main w)) = Some (c, Raised e))
  ∧ (propagates keras_predictor
     ∧ ∀ w c e, (c, Raised e) ∈ calls_of (keras_predictor w) →
         result_of (keras_predictor w) = Raise e
         ∧ last (calls_of (keras_predictor w)) = Some (c, Raised e)).
Proof.
  split; (split; [|intros w c e; apply propagates_raised]).
  all: first [apply main_propagates | apply keras_predictor_propagates].
Qed.

(** Without its input file the cardiotocographic script ends with the
    [FileNotFoundError] of [read_excel]. *)
Lemma C5_exceptions_propagate_witness :
  result_of (main toy_world_empty) = Raise (Exn "FileNotFoundError" "CTG.xls")
  ∧ last (calls_of (main toy_world_empty))
    = Some (call_read_excel "CTG.xls" "Raw Data",
            Raised (Exn "FileNotFoundError" "CTG.xls")).
Proof.
  apply (proj2 (proj1 (C5_exceptions_propagate (B:=toy)))).
  vm_compute. apply list_elem_of_here.
Defined.


(** ** C6: the command line is not read *)

Section Arguments.
Context `{B : Backend}.

Lemma argv_blind_ret {A} (a : A) : argv_blind (mret a).
Proof. done. Qed.

Lemma argv_blind_invoke {A} c (f : world → result A * world) :
  (∀ a w, f (set_argv a w) = ((f w).1, set_argv a (f w).2)) →
  argv_blind (invoke c f).
Proof.
  intros Hf a w. unfold invoke, result_of, world_of, calls_of. simpl.
  by rewrite Hf.
Qed.

Lemma argv_blind_bind {A C} (m : M A) (k : A → M C) :
  argv_blind m → (∀ x, argv_blind (k x)) → argv_blind (m ≫= k).
Proof.
  intros Hm Hk a w. unfold mbind, M_bind, bind.
  specialize (Hm a w). revert Hm. generalize (m (set_argv a w)).
  intros ? ->. unfold result_of, world_of, calls_of.
  destruct (m w) as [[[x|e] w1] evs1]; simpl; [|done].
  by rewrite Hk.
Qed.

Lemma argv_blind_for_each {A} (l : list A) (body : A → M ()) :
  (∀ x, argv_blind (body x)) → argv_blind (for_each l body).
Proof.
  intros Hbody. induction l as [|x l IH]; simpl.
  - apply argv_blind_ret.
  - apply argv_blind_bind; auto.
Qed.

Ltac blind_call :=
  let a := fresh in
  let w := fresh in
  intros a w; destruct w; unfold abspath;
  cbn [argv cwd fs random stdout figures screen set_argv set_fs set_random
       set_stdout set_figures set_screen set_current_figure current_figure
       draw fst snd];
  try reflexivity;
  repeat (case_match;
          cbn [argv cwd fs random stdout figures screen set_argv set_fs
               set_random set_stdout set_figures set_screen
               set_current_figure current_figure draw fst snd];
          try reflexivity).

Ltac blindness_step :=
  lazymatch goal with
  | |- argv_blind (mbind _ _) => apply argv_blind_bind; [|intros ?]
  | |- argv_blind (mret _) => apply argv_blind_ret
  | |- argv_blind (invoke _ _) => apply argv_blind_invoke; blind_call
  | |- argv_blind (pure_call _ _) => apply argv_blind_invoke; blind_call
  | |- argv_blind (for_each _ _) => apply argv_blind_for_each; intros ?
  | |- argv_blind (let '(_, _) := ?x in _) => destruct x
  | |- argv_blind ?m => let h := wp_head m in unfold h
  end.

Ltac blindness := repeat blindness_step.

Lemma main_argv_blind : argv_blind main.
Proof. blindness. Qed.

Lemma keras_predictor_argv_blind : argv_blind keras_predictor.
Proof. blindness. Qed.

End Arguments.

(** C6. Neither script reads its command line: two invocations that differ
    only in their arguments have the same result and make the same calls
    with the same outcomes, and they leave the same world (files, console,
    figures, generator), the arguments apart. *)
Theorem C6_arguments_ignored `{B : Backend} :
  (∀ args1 args2 w,
     result_of (main (set_argv args1 w)) = result_of (main (set_argv args2 w))
     ∧ calls_of (main (set_argv args1 w)) = calls_of (main (set_argv args2 w))
     ∧ world_of (main (set_argv args1 w))
       = set_argv args1 (world_of (main (set_argv args2 w))))
  ∧ (∀ args1 args2 w,
       result_of (keras_predictor (set_argv args1 w))
       = result_of (keras_predictor (set_argv args2 w))
       ∧ calls_of (keras_predictor (set_argv args1 w))
         = calls_of (keras_predictor (set_argv args2 w))
       ∧ world_of (keras_predictor (set_argv args1 w))
         = set_argv args1 (world_of (keras_predictor (set_argv args2 w)))).
Proof.
  split; intros args1 args2 w.
  - by rewrite (main_argv_blind args1 w), (main_argv_blind args2 w).
  - by rewrite (keras_predictor_argv_blind args1 w),
         (keras_predictor_argv_blind args2 w).
Qed.

(** ** C8: the evaluation data is held out *)

Section HeldOut.
Context `{B : Backend}.

Lemma omap_lookup_seq {A} (l : list A) :
  omap (λ p, l !! p) (seq 0 (length l)) = l.
Proof.
  induction l as [|x l IH]; [done|].
  simpl. f_equal. rewrite <- fmap_S_seq.
  transitivity (omap (λ p, l !! p) (seq 0 (length l))); [|exact IH].
  clear IH. induction (seq 0 (length l)) as [|p ps IH]; [done|].
  csimpl. destruct (l !! p); [f_equal|]; exact IH.
Qed.

(** The rows at the positions of a permutation are the rows. *)
Lemma take_rows_Permutation {A} (data : DataFrame A) p :
  p ≡ₚ seq 0 (length (rows data)) → rows (take_rows data p) ≡ₚ rows data.
Proof.
  intros Hp. unfold take_rows. simpl. rewrite Hp. by rewrite omap_lookup_seq.
Qed.

(** The first [k] positions of a permutation go to the test set and the
    others to the training set: a split. *)
Lemma take_rows_splits {A} (data : DataFrame A) p k :
  p ≡ₚ seq 0 (length (rows data)) → NoDup (index data) →
  splits data
    (take_rows data (take (length (rows data) - k) (drop k p)))
    (take_rows data (take k p)).
Proof.
  intros Hp Hdup.
  assert (length p = length (rows data)) as Hlen.
  { by rewrite Hp, length_seq. }
  rewrite (take_ge (drop k p)) by (rewrite length_drop; lia).
  assert (rows (take_rows data (drop k p)) ++ rows (take_rows data (take k p))
          ≡ₚ rows data) as Hrows.
  { rewrite <- (take_rows_Permutation data p Hp). unfold take_rows. simpl.
    rewrite <- (take_drop k p) at 3. rewrite omap_app.
    apply Permutation_app_comm. }
  split; [|exact Hrows].
  assert (NoDup (index (take_rows data (drop k p))
                 ++ index (take_rows data (take k p)))) as Hnd.
  { unfold index in *. rewrite <- fmap_app. by rewrite Hrows. }
  apply NoDup_app in Hnd as (_ & Hdisj & _). exact Hdisj.
Qed.

Lemma read_table_index header records d :
  read_table header records = Ok d → NoDup (index d).
Proof.
  unfold read_table. destruct header as [|c cs]; [done|].
  case_decide; [|done]. intros Hd. apply Ok_eq in Hd. subst d.
  unfold index, range_index. simpl.
  rewrite fst_zip by (by rewrite length_seq). apply NoDup_seq.
Qed.

Lemma read_csv_index path w d :
  result_of (read_csv path w) = Ok d → NoDup (index d).
Proof.
  unfold read_csv, invoke, result_of. simpl.
  destruct (fs w !! abspath w path) as [[]|]; try done.
  apply read_table_index.
Qed.

Lemma read_excel_index path sheet usecols w d :
  result_of (read_excel path sheet usecols w) = Ok d → NoDup (index d).
Proof.
  unfold read_excel, invoke, result_of. simpl.
  destruct (fs w !! abspath w path) as [[]|]; try done.
  destruct (list_find _ _) as [[? [? [? ?]]]|]; [|done].
  case_decide; [|done]. apply read_table_index.
Qed.

(** [dropna] keeps the labels of the rows it keeps. *)
Lemma dropna_index d : index (dropna d) `sublist_of` index d.
Proof.
  unfold index, dropna. simpl.
  induction (rows d) as [|[i r] l IH]; [done|].
  simpl. destruct (mapM id r); simpl.
  - by apply sublist_skip.
  - by apply sublist_cons.
Qed.

Lemma loc_columns_index {A} (d d' : DataFrame A) cols :
  loc_columns d cols = Ok d' → index d' = index d.
Proof.
  unfold loc_columns. destruct (mapM _ _); [|done].
  intros Hd. apply Ok_eq in Hd. subst d'.
  unfold index. simpl. by rewrite <- list_fmap_compose.
Qed.

Lemma diabetes_dataset_Ok w d :
  result_of (read_csv
               (path_join (cwd w) "02-keras-2L-diabetes-predict/diabetes.csv") w)
  = Ok d →
  result_of (diabetes_dataset w) = Ok d ∧ NoDup (index d).
Proof.
  intros Hd. split; [exact Hd|]. by eapply read_csv_index.
Qed.

Lemma CTG_dataset_Ok w d data :
  result_of (read_excel "CTG.xls" "Raw Data" usecols_G_AN w) = Ok d →
  loc_columns (dropna d) CTG_columns = Ok data →
  result_of (CTG_dataset w) = Ok data ∧ NoDup (index data).
Proof.
  intros Hd Hdata. split.
  - unfold CTG_dataset, mbind, M_bind, bind.
    rewrite Hd. unfold df_dropna, df_loc, pure_call, invoke.
    cbn [result_of world_of calls_of fst snd]. exact Hdata.
  - rewrite (loc_columns_index _ _ _ Hdata).
    eapply sublist_NoDup; [|apply dropna_index].
    by eapply read_excel_index.
Qed.

(** The frames of a run of the cardiotocographic script, and what it
    hands to [fit] and to [evaluate]. *)
Lemma main_held_out w :
  permutation_contract →
  fit_inputs (calls_of (main w)) = []
  ∧ evaluate_inputs (calls_of (main w)) = []
  ∨ ∃ data train test XY,
      result_of (CTG_dataset w) = Ok data
      ∧ NoDup (index data)
      ∧ splits data train test
      ∧ fit_inputs (calls_of (main w)) = [XY]
      ∧ CTG_arrays train train XY
      ∧ Forall (CTG_arrays train test) (evaluate_inputs (calls_of (main w))).
Proof.
  intros Hperm.
  change (post main w (λ _ _ evs,
    fit_inputs evs = [] ∧ evaluate_inputs evs = []
    ∨ ∃ data train test XY,
        result_of (CTG_dataset w) = Ok data
        ∧ NoDup (index data)
        ∧ splits data train test
        ∧ fit_inputs evs = [XY]
        ∧ CTG_arrays train train XY
        ∧ Forall (CTG_arrays train test) (evaluate_inputs evs))).
  run.
  all: unfold evaluate_inputs, fit_inputs; project_log.
  all: try (by left).
  all: right.
  all: match goal with
       | Hread : _ = Ok ?d, Hdrop : dropna ?d = ?d',
         Hloc : loc_columns ?d' CTG_columns = Ok ?data |- _ =>
           subst d';
           destruct (CTG_dataset_Ok w d data Hread Hloc) as [Hdata Hdup];
           exists data
       end.
  all: match type of Htrain with ?train = _ => exists train end.
  all: match type of Htest with ?test = _ => exists test end.
  all: eexists; split; [exact Hdata|]; split; [exact Hdup|].
  all: split; [rewrite Htrain, Htest; apply take_rows_splits;
               [apply Hperm|exact Hdup]|].
  all: split; [reflexivity|].
  all: repeat match goal with
              | H : iloc_but_last _ = ?v |- _ => subst v
              | H : _ <$> _ = ?v |- _ => subst v
              end.
  all: split; [by eexists _, _, _|].
  all: repeat constructor.
  all: by eexists _, _, _.
Qed.

Lemma keras_predictor_held_out w :
  permutation_contract →
  fit_inputs (calls_of (keras_predictor w)) = []
  ∧ evaluate_inputs (calls_of (keras_predictor w)) = []
  ∨ ∃ data train test XY,
      result_of (diabetes_dataset w) = Ok data
      ∧ NoDup (index data)
      ∧ splits data train test
      ∧ fit_inputs (calls_of (keras_predictor w)) = [XY]
      ∧ diabetes_arrays train XY
      ∧ Forall (diabetes_arrays test)
          (evaluate_inputs (calls_of (keras_predictor w))).
Proof.
  intros Hperm.
  change (post keras_predictor w (λ _ _ evs,
    fit_inputs evs = [] ∧ evaluate_inputs evs = []
    ∨ ∃ data train test XY,
        result_of (diabetes_dataset w) = Ok data
        ∧ NoDup (index data)
        ∧ splits data train test
        ∧ fit_inputs evs = [XY]
        ∧ diabetes_arrays train XY
        ∧ Forall (diabetes_arrays test) (evaluate_inputs evs))).
  run.
  all: unfold evaluate_inputs, fit_inputs; project_log.
  all: try (by left).
  all: right.
  all: match goal with
       | Hread : _ = Ok ?data, Htr : _ = take_rows ?data _ |- _ =>
           destruct (diabetes_dataset_Ok w data Hread) as [Hdata Hdup];
           exists data
       end.
  all: match type of Htrain with ?train = _ => exists train end.
  all: match type of Htest with ?test = _ => exists test end.
  all: eexists; split; [exact Hdata|]; split; [exact Hdup|].
  all: split; [rewrite Htrain, Htest; apply take_rows_splits;
               [apply Hperm|exact Hdup]|].
  all: split; [reflexivity|].
  all: repeat match goal with
              | H : iloc_but_last _ = ?v |- _ => subst v
              end.
  all: split; [by eexists|].
  all: repeat constructor.
  all: by eexists.
Qed.

End HeldOut.

(** C8. In both scripts the evaluation data is held out, given that the
    permutation of the split is a permutation: once a script reaches [fit],
    the training frame and the test frame share no row label, together they
    hold the rows of the loaded data set, each once, the arrays handed to
    [fit] are made of the training frame alone, and those handed to
    [evaluate] of the test frame (scaled, in the cardiotocographic script,
    by the scaler fitted on the training frame). *)
Theorem C8_held_out `{B : Backend} :
  permutation_contract →
  (∀ w,
     fit_inputs (calls_of (main w)) = []
     ∧ evaluate_inputs (calls_of (main w)) = []
     ∨ ∃ data train test XY,
         result_of (CTG_dataset w) = Ok data
         ∧ NoDup (index data)
         ∧ splits data train test
         ∧ fit_inputs (calls_of (main w)) = [XY]
         ∧ CTG_arrays train train XY
         ∧ Forall (CTG_arrays train test) (evaluate_inputs (calls_of (main w))))
  ∧ (∀ w,
       fit_inputs (calls_of (keras_predictor w)) = []
       ∧ evaluate_inputs (calls_of (keras_predictor w)) = []
       ∨ ∃ data train test XY,
           result_of (diabetes_dataset w) = Ok data
           ∧ NoDup (index data)
           ∧ splits data train test
           ∧ fit_inputs (calls_of (keras_predictor w)) = [XY]
           ∧ diabetes_arrays train XY
           ∧ Forall (diabetes_arrays test)
               (evaluate_inputs (calls_of (keras_predictor w)))).
Proof.
  intros Hperm. split; intros w.
  - by apply main_held_out.
  - by apply keras_predictor_held_out.
Qed.

Lemma toy_permutation_contract : permutation_contract (B:=toy).
Proof.
  intros g n. simpl. unfold rotate.
  rewrite Permutation_app_comm. by rewrite take_drop.
Qed.

(** On the small data sets both scripts reach [fit], with a split. *)
Lemma C8_held_out_witness :
  (∃ data train test XY,
     result_of (CTG_dataset (toy_world_ctg 0 [])) = Ok data
     ∧ NoDup (index data)
     ∧ splits data train test
     ∧ fit_inputs (calls_of (main (toy_world_ctg 0 []))) = [XY]
     ∧ CTG_arrays train train XY
     ∧ Forall (CTG_arrays train test)
         (evaluate_inputs (calls_of (main (toy_world_ctg 0 [])))))
  ∧ (∃ data train test XY,
       result_of (diabetes_dataset (toy_world_diabetes 0 [])) = Ok data
       ∧ NoDup (index data)
       ∧ splits data train test
       ∧ fit_inputs (calls_of (keras_predictor (toy_world_diabetes 0 []))) = [XY]
       ∧ diabetes_arrays train XY
       ∧ Forall (diabetes_arrays test)
           (evaluate_inputs (calls_of (keras_predictor (toy_world_diabetes 0 []))))).
Proof.
  destruct (C8_held_out (B:=toy) toy_permutation_contract) as [Hmain Hdiabetes].
  split.
  - destruct (Hmain (toy_world_ctg 0 [])) as [[Hfit _]|H]; [|exact H].
    vm_compute in Hfit. discriminate Hfit.
  - destruct (Hdiabetes (toy_world_diabetes 0 [])) as [[Hfit _]|H]; [|exact H].
    vm_compute in Hfit. discriminate Hfit.
Defined.

(** ** C4: the split is not seeded; the accuracy reported *)

Section Unseeded.
Context `{B : Backend}.

(** A complete run of the diabetes script prints the accuracy that
    [evaluate] returned. *)
Lemma keras_predictor_accuracy w :
  result_of (keras_predictor w) = Ok () →
  ∃ m X Y scores acc,
    (call_evaluate m X Y, Returned) ∈ calls_of (keras_predictor w)
    ∧ keras_evaluate m X Y = Ok scores
    ∧ scores !! 1 = Some acc
    ∧ (call_print ("Test accuracy: " +:+ float_repr acc), Returned)
      ∈ calls_of (keras_predictor w).
Proof.
  apply (post_complete keras_predictor w (λ _ evs, ∃ m X Y scores acc,
    (call_evaluate m X Y, Returned) ∈ evs
    ∧ keras_evaluate m X Y = Ok scores
    ∧ scores !! 1 = Some acc
    ∧ (call_print ("Test accuracy: " +:+ float_repr acc), Returned) ∈ evs)).
  run.
  all: try (intros ?; discriminate).
  intros _.
  match goal with
  | Hev : keras_evaluate ?m ?X ?Y = Ok ?scores,
    Hacc : match ?scores !! 1 with Some _ => _ | None => _ end = Ok ?acc |- _ =>
      exists m, X, Y, scores, acc;
      destruct (scores !! 1) as [acc'|]; [|discriminate Hacc];
      apply Ok_eq in Hacc; subst acc';
      split; [find_event|]; split; [exact Hev|]; split; [reflexivity|]
  end.
  find_event.
Qed.

(** A complete run of the cardiotocographic script prints the loss and the
    accuracy that [evaluate] returned. *)
Lemma main_accuracy w :
  result_of (main w) = Ok () →
  ∃ m X Y loss acc,
    (call_evaluate m X Y, Returned) ∈ calls_of (main w)
    ∧ keras_evaluate m X Y = Ok [loss; acc]
    ∧ (call_print ("loss: " +:+ float_repr loss +:+ newline
                   +:+ "categorical_accuracy: " +:+ float_repr acc), Returned)
      ∈ calls_of (main w).
Proof.
  apply (post_complete main w (λ _ evs, ∃ m X Y loss acc,
    (call_evaluate m X Y, Returned) ∈ evs
    ∧ keras_evaluate m X Y = Ok [loss; acc]
    ∧ (call_print ("loss: " +:+ float_repr loss +:+ newline
                   +:+ "categorical_accuracy: " +:+ float_repr acc), Returned)
      ∈ evs)).
  run.
  all: try (intros ?; discriminate).
  intros _.
  match goal with
  | Hev : keras_evaluate ?m ?X ?Y = Ok ?scores,
    Hun : match ?scores with [] => _ | _ :: _ => _ end = Ok (?loss, ?acc) |- _ =>
      exists m, X, Y, loss, acc;
      destruct scores as [|? [|? [|? ?]]]; try discriminate Hun;
      apply Ok_eq in Hun; injection Hun as -> ->;
      split; [find_event|]; split; [exact Hev|]
  end.
  find_event.
Qed.

(** The split of the diabetes script is the one that the process-wide
    generator gives in the state the run finds it in. *)
Lemma keras_predictor_split w :
  fit_inputs (calls_of (keras_predictor w)) = []
  ∧ evaluate_inputs (calls_of (keras_predictor w)) = []
  ∨ ∃ data XY,
      result_of (diabetes_dataset w) = Ok data
      ∧ fit_inputs (calls_of (keras_predictor w)) = [XY]
      ∧ diabetes_arrays
          (drawn_split data (float_sub (float 1) DIVIDE_RATIO) (random w)).1 XY
      ∧ Forall (diabetes_arrays
                  (drawn_split data (float_sub (float 1) DIVIDE_RATIO)
                     (random w)).2)
          (evaluate_inputs (calls_of (keras_predictor w))).
Proof.
  change (post keras_predictor w (λ _ _ evs,
    fit_inputs evs = [] ∧ evaluate_inputs evs = []
    ∨ ∃ data XY,
        result_of (diabetes_dataset w) = Ok data
        ∧ fit_inputs evs = [XY]
        ∧ diabetes_arrays
            (drawn_split data (float_sub (float 1) DIVIDE_RATIO) (random w)).1 XY
        ∧ Forall (diabetes_arrays
                    (drawn_split data (float_sub (float 1) DIVIDE_RATIO)
                       (random w)).2) (evaluate_inputs evs))).
  run.
  all: unfold evaluate_inputs, fit_inputs; project_log.
  all: try (by left).
  all: right.
  all: match goal with
       | Hread : _ = Ok ?data, Htr : _ = take_rows ?data _ |- _ =>
           destruct (diabetes_dataset_Ok w data Hread) as [Hdata _];
           exists data
       end.
  all: eexists; split; [exact Hdata|]; split; [reflexivity|].
  all: unfold drawn_split; cbn [fst snd]; rewrite <- Htrain, <- Htest.
  all: repeat match goal with
              | H : iloc_but_last _ = ?v |- _ => subst v
              end.
  all: split; [by eexists|].
  all: repeat constructor.
  all: by eexists.
Qed.

(** So is the split of the cardiotocographic script. *)
Lemma main_split w :
  fit_inputs (calls_of (main w)) = []
  ∧ evaluate_inputs (calls_of (main w)) = []
  ∨ ∃ data XY,
      result_of (CTG_dataset w) = Ok data
      ∧ fit_inputs (calls_of (main w)) = [XY]
      ∧ CTG_arrays (drawn_split data (float (Q2Qc (2 # 10))) (random w)).1
          (drawn_split data (float (Q2Qc (2 # 10))) (random w)).1 XY
      ∧ Forall (CTG_arrays
                  (drawn_split data (float (Q2Qc (2 # 10))) (random w)).1
                  (drawn_split data (float (Q2Qc (2 # 10))) (random w)).2)
          (evaluate_inputs (calls_of (main w))).
Proof.
  change (post main w (λ _ _ evs,
    fit_inputs evs = [] ∧ evaluate_inputs evs = []
    ∨ ∃ data XY,
        result_of (CTG_dataset w) = Ok data
        ∧ fit_inputs evs = [XY]
        ∧ CTG_arrays (drawn_split data (float (Q2Qc (2 # 10))) (random w)).1
            (drawn_split data (float (Q2Qc (2 # 10))) (random w)).1 XY
        ∧ Forall (CTG_arrays
                    (drawn_split data (float (Q2Qc (2 # 10))) (random w)).1
                    (drawn_split data (float (Q2Qc (2 # 10))) (random w)).2)
            (evaluate_inputs evs))).
  run.
  all: unfold evaluate_inputs, fit_inputs; project_log.
  all: try (by left).
  all: right.
  all: match goal with
       | Hread : _ = Ok ?d, Hdrop : dropna ?d = ?d',
         Hloc : loc_columns ?d' CTG_columns = Ok ?data |- _ =>
           subst d';
           destruct (CTG_dataset_Ok w d data Hread Hloc) as [Hdata _];
           exists data
       end.
  all: eexists; split; [exact Hdata|]; split; [reflexivity|].
  all: unfold drawn_split; cbn [fst snd]; rewrite <- Htrain, <- Htest.
  all: repeat match goal with
              | H : iloc_but_last _ = ?v |- _ => subst v
              | H : _ <$> _ = ?v |- _ => subst v
              end.
  all: split; [by eexists _, _, _|].
  all: repeat constructor.
  all: by eexists _, _, _.
Qed.

End Unseeded.

(** C4, as the code has it. Neither script takes a seed: in every run
    that gets as far as [fit], the training and the test frame are those
    that [train_test_split] draws of the loaded data set with the
    process-wide random generator in the state the run finds it in; the
    arrays handed to [fit] are made of that training frame and those handed
    to [evaluate] of that test frame. A run on a data set that loads need
    not complete. When a run completes, it prints the accuracy that
    [evaluate] returned, which lies between 0 and 1 as far as the accuracy
    Keras returns does. *)
Theorem C4_unseeded_split_and_accuracy `{B : Backend} :
  accuracy_contract →
  (∀ w, result_of (keras_predictor w) = Ok () →
     ∃ m X Y scores acc,
       (call_evaluate m X Y, Returned) ∈ calls_of (keras_predictor w)
       ∧ keras_evaluate m X Y = Ok scores
       ∧ scores !! 1 = Some acc
       ∧ in_unit_interval acc
       ∧ (call_print ("Test accuracy: " +:+ float_repr acc), Returned)
         ∈ calls_of (keras_predictor w))
  ∧ (∀ w, result_of (main w) = Ok () →
       ∃ m X Y loss acc,
         (call_evaluate m X Y, Returned) ∈ calls_of (main w)
         ∧ keras_evaluate m X Y = Ok [loss; acc]
         ∧ in_unit_interval acc
         ∧ (call_print ("loss: " +:+ float_repr loss +:+ newline
                        +:+ "categorical_accuracy: " +:+ float_repr acc),
            Returned) ∈ calls_of (main w))
  ∧ (∀ w,
       fit_inputs (calls_of (keras_predictor w)) = []
       ∧ evaluate_inputs (calls_of (keras_predictor w)) = []
       ∨ ∃ data XY,
           result_of (diabetes_dataset w) = Ok data
           ∧ fit_inputs (calls_of (keras_predictor w)) = [XY]
           ∧ diabetes_arrays
               (drawn_split data (float_sub (float 1) DIVIDE_RATIO)
                  (random w)).1 XY
           ∧ Forall (diabetes_arrays
                       (drawn_split data (float_sub (float 1) DIVIDE_RATIO)
                          (random w)).2)
               (evaluate_inputs (calls_of (keras_predictor w))))
  ∧ (∀ w,
       fit_inputs (calls_of (main w)) = []
       ∧ evaluate_inputs (calls_of (main w)) = []
       ∨ ∃ data XY,
           result_of (CTG_dataset w) = Ok data
           ∧ fit_inputs (calls_of (main w)) = [XY]
           ∧ CTG_arrays
               (drawn_split data (float (Q2Qc (2 # 10))) (random w)).1
               (drawn_split data (float (Q2Qc (2 # 10))) (random w)).1 XY
           ∧ Forall (CTG_arrays
                       (drawn_split data (float (Q2Qc (2 # 10))) (random w)).1
                       (drawn_split data (float (Q2Qc (2 # 10))) (random w)).2)
               (evaluate_inputs (calls_of (main w)))).
Proof.
  intros Hacc. split_and!.
  - intros w Hrun.
    destruct (keras_predictor_accuracy w Hrun)
      as (m & X & Y & scores & acc & Hin & Hev & Hsc & Hprint).
    exists m, X, Y, scores, acc. split_and!; try done. by eapply Hacc.
  - intros w Hrun.
    destruct (main_accuracy w Hrun)
      as (m & X & Y & loss & acc & Hin & Hev & Hprint).
    exists m, X, Y, loss, acc. split_and!; try done. by eapply Hacc.
  - apply keras_predictor_split.
  - apply main_split.
Qed.

(** In the small back end, whose floats are exact, [in_unit_interval] is
    the closed interval from 0 to 1. *)
Lemma toy_in_unit_interval (x : Qc) :
  in_unit_interval (B:=toy) x ↔ (0 ≤ x ≤ 1)%Qc.
Proof.
  unfold in_unit_interval. simpl. unfold id.
  rewrite !bool_decide_eq_false. split.
  - intros [H0 H1]. split; by apply Qcnot_lt_le.
  - intros [H0 H1]. split; by apply Qcle_not_lt.
Qed.

Lemma toy_accuracy_contract : accuracy_contract (B:=toy).
Proof.
  intros m X Y scores acc Hev Hacc. simpl in Hev. apply Ok_eq in Hev.
  subst scores. simpl in Hacc. injection Hacc as <-.
  apply toy_in_unit_interval. by split.
Qed.

(** On the small data sets both scripts complete and report an accuracy
    between 0 and 1. *)
Lemma C4_unseeded_split_and_accuracy_witness :
  (∃ acc, (0 ≤ acc ≤ 1)%Qc
          ∧ (@call_print toy ("Test accuracy: " +:+ @float_repr toy acc),
             Returned)
            ∈ calls_of (keras_predictor (toy_world_diabetes 0 [])))
  ∧ (∃ loss acc, (0 ≤ acc ≤ 1)%Qc
       ∧ (@call_print toy
            ("loss: " +:+ @float_repr toy loss +:+ newline
             +:+ "categorical_accuracy: " +:+ @float_repr toy acc),
          Returned) ∈ calls_of (main (toy_world_ctg 0 []))).
Proof.
  destruct (C4_unseeded_split_and_accuracy (B:=toy) toy_accuracy_contract)
    as (Hdiabetes & Hmain & _).
  split.
  - destruct (Hdiabetes (toy_world_diabetes 0 []))
      as (_ & _ & _ & _ & acc & _ & _ & _ & Hunit & Hprint).
    { vm_compute. reflexivity. }
    exists acc. split; [by apply toy_in_unit_interval|exact Hprint].
  - destruct (Hmain (toy_world_ctg 0 []))
      as (_ & _ & _ & loss & acc & _ & _ & Hunit & Hprint).
    { vm_compute. reflexivity. }
    exists loss, acc. split; [by apply toy_in_unit_interval|exact Hprint].
Defined.

(** C4 as the specification states it does not hold. On a data set of one
    record, which loads, the diabetes script stops at the split. And two
    runs of either script on the same files with the same arguments, from
    two states of the random generator, evaluate on two splits. *)
Lemma C4_counterexample :
  ¬ runs_without_error (B:=toy) diabetes_dataset keras_predictor
  ∧ ¬ seed_fixes_split (B:=toy) keras_predictor
  ∧ ¬ seed_fixes_split (B:=toy) main.
Proof.
  split_and!.
  - intros Hclaim. specialize (Hclaim (toy_world_csv 1)).
    assert (result_of (keras_predictor (toy_world_csv 1)) = Ok ()) as Hrun.
    { apply Hclaim. eexists. vm_compute. reflexivity. }
    vm_compute in Hrun. discriminate Hrun.
  - intros Hclaim.
    specialize (Hclaim (toy_world_diabetes 0 []) (toy_world_diabetes 1 [])
                  eq_refl eq_refl eq_refl).
    vm_compute in Hclaim. discriminate Hclaim.
  - intros Hclaim.
    specialize (Hclaim (toy_world_ctg 0 []) (toy_world_ctg 1 [])
                  eq_refl eq_refl eq_refl).
    vm_compute in Hclaim. discriminate Hclaim.
Qed.

(** * Further properties of the two scripts *)

(** ** [plot_metric_graph] *)

Section Plot.
Context `{B : Backend}.

Lemma run_eq {A} (m : M A) w :
  m w = (result_of (m w), world_of (m w), calls_of (m w)).
Proof. by destruct (m w) as [[? ?] ?]. Qed.

Lemma dict_lookup_Ok {A} (d : gmap string A) k (x : A) :
  match d !! k with
  | Some x => Ok x
  | None => Raise (Exn "KeyError" k)
  end = Ok x → d !! k = Some x.
Proof. destruct (d !! k); [|done]. intros H. apply Ok_eq in H. by subst. Qed.

Lemma dict_lookup_Raise {A} (d : gmap string A) k e :
  match d !! k with
  | Some x => Ok x
  | None => Raise (Exn "KeyError" k)
  end = Raise e → d !! k = None ∧ e = Exn "KeyError" k.
Proof. destruct (d !! k); [done|]. intros H. apply Raise_eq in H. by subst. Qed.

(** What the equations of the dictionary lookups say. *)
Ltac dict_lookups :=
  repeat match goal with
         | H : match _ !! _ with Some _ => _ | None => _ end = Ok _ |- _ =>
             apply dict_lookup_Ok in H
         | H : match _ !! _ with Some _ => _ | None => _ end = Raise _ |- _ =>
             apply dict_lookup_Raise in H as [H ->]
         end.

(** X1. [plot_metric_graph] returns only for a history that has the
    metric and its validation counterpart, each with one value per
    epoch. *)
Theorem plot_metric_graph_returns hist metric title w :
  result_of (plot_metric_graph hist metric title w) = Ok () →
  ∃ training validation,
    history hist !! metric = Some training
    ∧ history hist !! ("val_" +:+ metric) = Some validation
    ∧ length training = length (epoch hist)
    ∧ length validation = length (epoch hist).
Proof.
  change (post (plot_metric_graph hist metric title) w (λ r _ _,
    r = Ok () →
    ∃ training validation,
      history hist !! metric = Some training
      ∧ history hist !! ("val_" +:+ metric) = Some validation
      ∧ length training = length (epoch hist)
      ∧ length validation = length (epoch hist))).
  wp.
  all: try (intros ?; discriminate).
  intros _. dict_lookups. eauto 10.
Qed.

Lemma plot_metric_graph_run hist metric title training validation w :
  history hist !! metric = Some training →
  history hist !! ("val_" +:+ metric) = Some validation →
  length training = length (epoch hist) →
  length validation = length (epoch hist) →
  result_of (plot_metric_graph hist metric title w) = Ok ()
  ∧ world_of (plot_metric_graph hist metric title w)
    = set_screen
        (screen w
         ++ reverse (metric_figure (epoch hist) training validation metric
                     :: figures w))
        (set_figures []
           (set_fs
              (<[abspath w (title +:+ ".jpg") :=
                   JpegFile 300 "tight"
                     (metric_figure (epoch hist) training validation metric)]>
                 (fs w)) w)).
Proof.
  intros Htraining Hvalidation Hlen1 Hlen2.
  change (post (plot_metric_graph hist metric title) w (λ r w' _,
    r = Ok ()
    ∧ w' = set_screen
             (screen w
              ++ reverse (metric_figure (epoch hist) training validation metric
                          :: figures w))
             (set_figures []
                (set_fs
                   (<[abspath w (title +:+ ".jpg") :=
                        JpegFile 300 "tight"
                          (metric_figure (epoch hist) training validation
                             metric)]> (fs w)) w)))).
  wp.
  all: dict_lookups.
  all: try congruence.
  all: try match goal with
           | H : length _ ≠ length _ |- _ =>
               exfalso; apply H; congruence
           end.
  split; [done|].
  assert (a = training) as -> by congruence.
  assert (a1 = validation) as -> by congruence.
  reflexivity.
Qed.

(** X2. When it returns, [plot_metric_graph] has written one file,
    [title].jpg: at 300 dpi, a 15 by 5 figure with the training curve in
    blue, the validation curve in orange, the title [Epochs vs metric], the
    axis labels, a grid and a legend. The title names the file only. *)
Theorem plot_metric_graph_saves hist metric title training validation w :
  history hist !! metric = Some training →
  history hist !! ("val_" +:+ metric) = Some validation →
  length training = length (epoch hist) →
  length validation = length (epoch hist) →
  fs (world_of (plot_metric_graph hist metric title w))
  = <[abspath w (title +:+ ".jpg") :=
        JpegFile 300 "tight" (metric_figure (epoch hist) training validation metric)]>
      (fs w).
Proof.
  intros H1 H2 H3 H4.
  destruct (plot_metric_graph_run hist metric title _ _ w H1 H2 H3 H4)
    as [_ ->].
  reflexivity.
Qed.

(** X4. A call of [plot_metric_graph] that raises has written no file and
    shown nothing, and it leaves open the figure it had created. *)
Theorem plot_metric_graph_failure hist metric title w e :
  result_of (plot_metric_graph hist metric title w) = Raise e →
  fs (world_of (plot_metric_graph hist metric title w)) = fs w
  ∧ screen (world_of (plot_metric_graph hist metric title w)) = screen w
  ∧ ∃ fig, figures (world_of (plot_metric_graph hist metric title w))
           = fig :: figures w
           ∧ figsize fig = Some (15, 5).
Proof.
  change (post (plot_metric_graph hist metric title) w (λ r w' _,
    r = Raise e →
    fs w' = fs w ∧ screen w' = screen w
    ∧ ∃ fig, figures w' = fig :: figures w ∧ figsize fig = Some (15, 5))).
  wp.
  all: try (intros ?; discriminate).
  all: intros _; world_fields.
  all: split; [reflexivity|]; split; [reflexivity|].
  all: eexists; split; reflexivity.
Qed.

(** X3. For a metric that the history does not have,
    [plot_metric_graph] raises [KeyError] with the name of the metric, just
    after creating the figure: nothing is drawn, saved or shown. *)
Theorem plot_metric_graph_missing hist metric title w :
  history hist !! metric = None →
  plot_metric_graph hist metric title w
  = (Raise (Exn "KeyError" metric),
     set_figures (mkFigure (Some (15, 5)) [] :: figures w) w,
     [(call_plt "figure", Returned);
      (call_getitem (inr metric), Raised (Exn "KeyError" metric))]).
Proof.
  intros Hmissing. etrans; [apply run_eq|].
  change (post (plot_metric_graph hist metric title) w (λ r w' evs,
    (r, w', evs)
    = (Raise (Exn "KeyError" metric),
       set_figures (mkFigure (Some (15, 5)) [] :: figures w) w,
       [(call_plt "figure", Returned);
        (call_getitem (inr metric), Raised (Exn "KeyError" metric))]))).
  wp.
  all: dict_lookups.
  all: try congruence.
  reflexivity.
Qed.

End Plot.
(** ** [train_evaluate_save_model] *)

Section Training.
Context `{B : Backend}.

(** X5. What [train_evaluate_save_model] returns: the history of [fit]
    on the model that [create_cardiotocographic_model] builds for the width
    of [X_train], the two values of [evaluate] and the output of [predict],
    both of the model with the weights that [fit] gave; and this model is
    in the file [name].h5. *)
Theorem train_evaluate_save_model_returns X_train y_train X_test y_test
    X_to_predict num_categories name epochs w hist loss acc predictions :
  result_of (train_evaluate_save_model X_train y_train X_test y_test
               X_to_predict num_categories name epochs w)
  = Ok (hist, loss, acc, predictions) →
  ∃ m0 wts g,
    result_of (create_cardiotocographic_model (shape1 X_train) num_categories
                 (Some "cardiotocographic-predictor") w) = Ok m0
    ∧ keras_fit m0 X_train y_train epochs None (float (Q2Qc (2 # 10))) (random w)
      = Ok (wts, hist, g)
    ∧ keras_evaluate
        (mkSequential (model_name m0) (layers m0) (compiled m0) (Some wts))
        X_test y_test = Ok [loss; acc]
    ∧ keras_predict
        (mkSequential (model_name m0) (layers m0) (compiled m0) (Some wts))
        X_to_predict = Ok predictions
    ∧ fs (world_of (train_evaluate_save_model X_train y_train X_test y_test
                      X_to_predict num_categories name epochs w))
      = <[abspath w (name +:+ ".h5") :=
            H5File (mkSequential (model_name m0) (layers m0) (compiled m0)
                      (Some wts))]> (fs w).
Proof.
  change (post (train_evaluate_save_model X_train y_train X_test y_test
                  X_to_predict num_categories name epochs) w (λ r w' _,
    r = Ok (hist, loss, acc, predictions) →
    ∃ m0 wts g,
      result_of (create_cardiotocographic_model (shape1 X_train) num_categories
                   (Some "cardiotocographic-predictor") w) = Ok m0
      ∧ keras_fit m0 X_train y_train epochs None (float (Q2Qc (2 # 10)))
          (random w) = Ok (wts, hist, g)
      ∧ keras_evaluate
          (mkSequential (model_name m0) (layers m0) (compiled m0) (Some wts))
          X_test y_test = Ok [loss; acc]
      ∧ keras_predict
          (mkSequential (model_name m0) (layers m0) (compiled m0) (Some wts))
          X_to_predict = Ok predictions
      ∧ fs w'
        = <[abspath w (name +:+ ".h5") :=
              H5File (mkSequential (model_name m0) (layers m0) (compiled m0)
                        (Some wts))]> (fs w))).
  wp.
  all: try (intros ?; discriminate).
  intros Hr. apply Ok_eq in Hr. injection Hr as -> -> -> ->.
  match goal with
  | Hun : match ?scores with [] => _ | _ :: _ => _ end = Ok _ |- _ =>
      destruct scores as [|? [|? [|? ?]]]; try discriminate Hun;
      apply Ok_eq in Hun; injection Hun as -> ->
  end.
  eexists _, _, _. split; [reflexivity|]. cbn [model_name layers compiled].
  split; [eassumption|]. split; [eassumption|]. split; [eassumption|].
  world_fields. reflexivity.
Qed.

(** X6. A call of [train_evaluate_save_model] that raises has saved
    nothing: the model is written last, after [fit], [evaluate] and
    [predict]. *)
Theorem train_evaluate_save_model_failure X_train y_train X_test y_test
    X_to_predict num_categories name epochs w e :
  result_of (train_evaluate_save_model X_train y_train X_test y_test
               X_to_predict num_categories name epochs w) = Raise e →
  fs (world_of (train_evaluate_save_model X_train y_train X_test y_test
                  X_to_predict num_categories name epochs w)) = fs w
  ∧ Forall (λ ev : event, is_save ev.1 = false)
      (calls_of (train_evaluate_save_model X_train y_train X_test y_test
                   X_to_predict num_categories name epochs w)).
Proof.
  change (post (train_evaluate_save_model X_train y_train X_test y_test
                  X_to_predict num_categories name epochs) w (λ r w' evs,
    r = Raise e →
    fs w' = fs w ∧ Forall (λ ev : event, is_save ev.1 = false) evs)).
  wp.
  all: try (intros ?; discriminate).
  all: intros _; world_fields; split; [reflexivity|].
  all: simpl; repeat constructor.
Qed.

(** X7. Whatever the [name] argument of [train_evaluate_save_model],
    the same models are handed to [fit], [evaluate] and [predict], and each
    is called [cardiotocographic-predictor]: the name is used for the file
    only. *)
Theorem train_evaluate_save_model_name X_train y_train X_test y_test
    X_to_predict num_categories name name' epochs w :
  models_of (calls_of (train_evaluate_save_model X_train y_train X_test
                         y_test X_to_predict num_categories name epochs w))
  = models_of (calls_of (train_evaluate_save_model X_train y_train X_test
                           y_test X_to_predict num_categories name' epochs w))
  ∧ Forall (λ m, model_name m = Some "cardiotocographic-predictor")
      (models_of (calls_of (train_evaluate_save_model X_train y_train X_test
                              y_test X_to_predict num_categories name epochs w))).
Proof.
  change (post (train_evaluate_save_model X_train y_train X_test y_test
                  X_to_predict num_categories name epochs) w (λ _ _ evs,
    post (train_evaluate_save_model X_train y_train X_test y_test
            X_to_predict num_categories name' epochs) w (λ _ _ evs',
      models_of evs = models_of evs'
      ∧ Forall (λ m, model_name m = Some "cardiotocographic-predictor")
          (models_of evs)))).
  wp.
  all: try congruence.
  all: simpl.
  all: repeat (match goal with
               | H : ?x = Ok _, H' : ?x = Ok _ |- _ =>
                   rewrite H in H'; apply Ok_eq in H'
               | H : ?x = Raise _, H' : ?x = Raise _ |- _ =>
                   rewrite H in H'; apply Raise_eq in H'
               end; simplify_eq).
  all: try congruence.
  all: split; [reflexivity|].
  all: repeat constructor.
Qed.

End Training.
(** ** What the scripts print *)

Section Console.
Context `{B : Backend}.

(** A complete run of the loop over the predicted labels prints, for each
    index, the label at that index. *)
Lemma print_labels_complete (predicted : list nat) w :
  post (for_each predicted (λ prediction,
          label ← getitem labels prediction; print label)) w
    (λ r w1 evs,
       r = Ok () →
       ∃ lines,
         Forall2 (λ i line, labels !! i = Some line) predicted lines
         ∧ evs = flat_map (λ il : nat * string,
                             [(call_getitem (inl il.1), Returned);
                              (call_print il.2, Returned)])
                   (zip predicted lines)
         ∧ w1 = set_stdout (stdout w ++ lines) w).
Proof.
  revert w. induction predicted as [|i predicted IH]; intros w.
  - apply post_ret. intros _. exists []. split; [constructor|].
    split; [done|]. rewrite app_nil_r. apply set_stdout_id.
  - cbn [for_each]. wp.
    + eapply post_mono; [apply IH|]. cbv beta.
      intros r w1 evs Hloop Hr.
      destruct (Hloop Hr) as (lines & Hlines & -> & ->).
      destruct (labels !! i) as [label|] eqn:Hlabel; [|discriminate].
      match goal with H : Ok _ = Ok _ |- _ => apply Ok_eq in H; subst end.
      eexists (_ :: lines). split; [constructor; [eassumption|done]|].
      split; [done|].
      world_fields. by rewrite <- (assoc app).
    + intros ?; discriminate.
Qed.

(** A complete run of the loop over the predictions of the diabetes script
    prints, for each prediction, which has a single value, one of two
    lines, as the value is above .5 or not. *)
Lemma print_diagnoses_complete (predictions : matrix) w :
  post (for_each predictions (λ prediction : list scalar,
          diabetic ← truth ((λ p, float_gt p (float (Q2Qc (5 # 10)))) <$> prediction);
          print (if diabetic : bool then "Person have got diabetes..."
                 else "Person is healthy..."))) w
    (λ r w1 evs,
       r = Ok () →
       ∃ lines,
         Forall2 (λ row line,
                    ∃ p, row = [p]
                         ∧ line = if float_gt p (float (Q2Qc (5 # 10)))
                                  then "Person have got diabetes..."
                                  else "Person is healthy...")
           predictions lines
         ∧ evs = flat_map (λ line : string,
                             [(call_truth, Returned); (call_print line, Returned)])
                   lines
         ∧ w1 = set_stdout (stdout w ++ lines) w).
Proof.
  revert w. induction predictions as [|row predictions IH]; intros w.
  - apply post_ret. intros _. exists []. split; [constructor|].
    split; [done|]. rewrite app_nil_r. apply set_stdout_id.
  - cbn [for_each]. wp.
    + eapply post_mono; [apply IH|]. cbv beta.
      intros r w1 evs Hloop Hr.
      destruct (Hloop Hr) as (lines & Hlines & -> & ->).
      match goal with
      | H : match _ <$> row with [] => _ | _ :: _ => _ end = Ok _ |- _ =>
          destruct row as [|p [|? ?]]; cbn [fmap list_fmap] in H;
          try discriminate H; apply Ok_eq in H; subst
      end.
      eexists (_ :: lines). split; [constructor; [by eexists|done]|].
      split; [done|]. world_fields. by rewrite <- (assoc app).
    + intros ?; discriminate.
Qed.

End Console.

Ltac wp_loop_complete :=
  lazymatch goal with
  | |- post (for_each _ _) _ _ =>
      let Hloop := fresh "Hloop" in
      eapply post_mono;
      [ first [apply print_labels_complete | apply print_diagnoses_complete]
      | intros [[]|?] ? ? Hloop; cbv beta iota;
        [ destruct (Hloop eq_refl) as (? & ? & ? & ?); clear Hloop; subst;
          cbv beta iota
        | clear Hloop ] ]
  end.

Ltac run_complete := repeat first [wp_step | wp_loop_complete].

Section Printed.
Context `{B : Backend}.

Lemma printed_app evs1 evs2 : printed (evs1 ++ evs2) = printed evs1 ++ printed evs2.
Proof. apply omap_app. Qed.

Lemma printed_diagnoses (lines : list string) :
  printed (flat_map (λ line : string,
                       [(call_truth, Returned); (call_print line, Returned)])
             lines) = lines.
Proof. induction lines as [|line lines IH]; [done|]. simpl. by rewrite IH. Qed.

Lemma printed_labels (predicted : list nat) (lines : list string) :
  length predicted = length lines →
  printed (flat_map (λ il : nat * string,
                       [(call_getitem (inl il.1), Returned);
                        (call_print il.2, Returned)])
             (zip predicted lines)) = lines.
Proof.
  revert lines. induction predicted as [|i predicted IH]; intros [|line lines];
    try done.
  intros [= Hlen]. simpl. by rewrite IH.
Qed.

(** X8. What a complete run of the diabetes script prints by itself:
    the accuracy that [evaluate] returned, and then for each prediction,
    which has a single value, one line, as the value is above .5 or not. *)
Theorem keras_predictor_prints w :
  result_of (keras_predictor w) = Ok () →
  ∃ m X Y scores acc X' predictions lines,
    keras_evaluate m X Y = Ok scores
    ∧ scores !! 1 = Some acc
    ∧ keras_predict m X' = Ok predictions
    ∧ Forall2 (λ row line,
                 ∃ p, row = [p]
                      ∧ line = if float_gt p (float (Q2Qc (5 # 10)))
                               then "Person have got diabetes..."
                               else "Person is healthy...")
        predictions lines
    ∧ printed (calls_of (keras_predictor w))
      = ("Test accuracy: " +:+ float_repr acc) :: lines.
Proof.
  apply (post_complete keras_predictor w (λ _ evs,
    ∃ m X Y scores acc X' predictions lines,
      keras_evaluate m X Y = Ok scores
      ∧ scores !! 1 = Some acc
      ∧ keras_predict m X' = Ok predictions
      ∧ Forall2 (λ row line,
                   ∃ p, row = [p]
                        ∧ line = if float_gt p (float (Q2Qc (5 # 10)))
                                 then "Person have got diabetes..."
                                 else "Person is healthy...")
          predictions lines
      ∧ printed evs = ("Test accuracy: " +:+ float_repr acc) :: lines)).
  run_complete.
  all: try (intros ?; discriminate).
  intros _.
  match goal with
  | Hev : keras_evaluate ?m ?X ?Y = Ok ?scores,
    Hacc : match ?scores !! 1 with Some _ => _ | None => _ end = Ok ?acc,
    Hpr : keras_predict ?m ?X' = Ok ?P,
    Hlines : Forall2 _ ?P ?lines |- _ =>
      exists m, X, Y, scores, acc, X', P, lines;
      destruct (scores !! 1) as [acc'|]; [|discriminate Hacc];
      apply Ok_eq in Hacc; subst acc';
      split; [exact Hev|]; split; [reflexivity|]; split; [exact Hpr|];
      split; [exact Hlines|]
  end.
  simpl. rewrite printed_diagnoses. reflexivity.
Qed.

(** X9. What a complete run of the cardiotocographic script prints by
    itself: the loss and the accuracy that [evaluate] returned, between two
    rules, and then for each prediction the label at the position of its
    largest value. *)
Theorem main_prints w :
  result_of (main w) = Ok () →
  ∃ m X Y loss acc X' predictions predicted lines,
    keras_evaluate m X Y = Ok [loss; acc]
    ∧ keras_predict m X' = Ok predictions
    ∧ result_mapM argmax predictions = Ok predicted
    ∧ Forall2 (λ i line, labels !! i = Some line) predicted lines
    ∧ printed (calls_of (main w))
      = ["################################";
         "Model Evaluation Metrics:";
         "loss: " +:+ float_repr loss +:+ newline
         +:+ "categorical_accuracy: " +:+ float_repr acc;
         "################################"]
        ++ lines.
Proof.
  apply (post_complete main w (λ _ evs,
    ∃ m X Y loss acc X' predictions predicted lines,
      keras_evaluate m X Y = Ok [loss; acc]
      ∧ keras_predict m X' = Ok predictions
      ∧ result_mapM argmax predictions = Ok predicted
      ∧ Forall2 (λ i line, labels !! i = Some line) predicted lines
      ∧ printed evs
        = ["################################";
           "Model Evaluation Metrics:";
           "loss: " +:+ float_repr loss +:+ newline
           +:+ "categorical_accuracy: " +:+ float_repr acc;
           "################################"]
          ++ lines)).
  run_complete.
  all: try (intros ?; discriminate).
  intros _.
  match goal with
  | Hev : keras_evaluate ?m ?X ?Y = Ok ?scores,
    Hun : match ?scores with [] => _ | _ :: _ => _ end = Ok (?loss, ?acc),
    Hpr : keras_predict ?m ?X' = Ok ?P,
    Harg : result_mapM argmax ?P = Ok ?predicted,
    Hlines : Forall2 _ ?predicted ?lines |- _ =>
      exists m, X, Y, loss, acc, X', P, predicted, lines;
      destruct scores as [|? [|? [|? ?]]]; try discriminate Hun;
      apply Ok_eq in Hun; injection Hun as -> ->;
      split; [exact Hev|]; split; [exact Hpr|]; split; [exact Harg|];
      split; [exact Hlines|];
      apply Forall2_length in Hlines
  end.
  simpl. rewrite printed_app, printed_labels by done. simpl.
  by rewrite app_nil_r.
Qed.

End Printed.
(** ** Missing and malformed inputs *)

(** A run, with the branches that [tac] refutes closed as they come up. *)
Ltac run_pruning tac := repeat (first [wp_step | wp_loop]; try solve [tac]).

Section Inputs.
Context `{B : Backend}.

(** X10. Without [CTG.xls] the cardiotocographic script makes one call:
    [read_excel] raises [FileNotFoundError], and nothing has changed. *)
Theorem main_missing_data w :
  fs w !! abspath w "CTG.xls" = None →
  main w
  = (Raise (Exn "FileNotFoundError" "CTG.xls"), w,
     [(call_read_excel "CTG.xls" "Raw Data",
       Raised (Exn "FileNotFoundError" "CTG.xls"))]).
Proof.
  intros Hmissing. unfold abspath in Hmissing. etrans; [apply run_eq|].
  change (post main w (λ r w' evs,
    (r, w', evs)
    = (Raise (Exn "FileNotFoundError" "CTG.xls"), w,
       [(call_read_excel "CTG.xls" "Raw Data",
         Raised (Exn "FileNotFoundError" "CTG.xls"))]))).
  run_pruning ltac:(idtac; match goal with
                    | H : _ = Ok _ |- _ => rewrite Hmissing in H; discriminate H
                    end).
  match goal with
  | H : _ = Raise _ |- _ => rewrite Hmissing in H; apply Raise_eq in H; subst
  end.
  by destruct w.
Qed.

(** X11. Without [diabetes.csv] the diabetes script makes two calls:
    [getcwd], then [read_csv], which raises [FileNotFoundError]; nothing
    has changed. *)
Theorem keras_predictor_missing_data w :
  fs w !! abspath w (path_join (cwd w)
                       "02-keras-2L-diabetes-predict/diabetes.csv") = None →
  keras_predictor w
  = (Raise (Exn "FileNotFoundError"
              (path_join (cwd w) "02-keras-2L-diabetes-predict/diabetes.csv")),
     w,
     [(call_getcwd, Returned);
      (call_read_csv
         (path_join (cwd w) "02-keras-2L-diabetes-predict/diabetes.csv"),
       Raised (Exn "FileNotFoundError"
                 (path_join (cwd w)
                    "02-keras-2L-diabetes-predict/diabetes.csv")))]).
Proof.
  intros Hmissing. unfold abspath in Hmissing. etrans; [apply run_eq|].
  change (post keras_predictor w (λ r w' evs,
    (r, w', evs)
    = (Raise (Exn "FileNotFoundError"
                (path_join (cwd w) "02-keras-2L-diabetes-predict/diabetes.csv")),
       w,
       [(call_getcwd, Returned);
        (call_read_csv
           (path_join (cwd w) "02-keras-2L-diabetes-predict/diabetes.csv"),
         Raised (Exn "FileNotFoundError"
                   (path_join (cwd w)
                      "02-keras-2L-diabetes-predict/diabetes.csv")))]))).
  run_pruning ltac:(idtac; match goal with
                    | H : _ = Ok _ |- _ => rewrite Hmissing in H; discriminate H
                    end).
  match goal with
  | H : _ = Raise _ |- _ => rewrite Hmissing in H; apply Raise_eq in H; subst
  end.
  by destruct w.
Qed.

(** X12. Without [predicted.csv] the cardiotocographic script does not
    complete, and it stops before it builds a model: it makes load, split
    and scale/encode calls only, hands no model to Keras and writes
    nothing. *)
Theorem main_missing_predicted w :
  fs w !! abspath w "predicted.csv" = None →
  result_of (main w) ≠ Ok ()
  ∧ fs (world_of (main w)) = fs w
  ∧ Forall (λ ev : event, phase_rank (phase_of ev.1) ≤ phase_rank ScaleEncode)
      (calls_of (main w))
  ∧ models_of (calls_of (main w)) = [].
Proof.
  intros Hmissing. unfold abspath in Hmissing.
  change (post main w (λ r w' evs,
    r ≠ Ok () ∧ fs w' = fs w
    ∧ Forall (λ ev : event, phase_rank (phase_of ev.1) ≤ phase_rank ScaleEncode)
        evs
    ∧ models_of evs = [])).
  run_pruning ltac:(idtac; match goal with
                    | H : match fs w !! path_join (cwd w) "predicted.csv" with
                          | Some _ => _ | None => _ end = Ok _ |- _ =>
                        rewrite Hmissing in H; discriminate H
                    end).
  all: split; [done|]; split; [reflexivity|].
  all: split; [|reflexivity].
  all: simpl; repeat constructor.
Qed.

(** X13. The cardiotocographic script writes to four paths and to no
    other, however far it gets: every other file, its inputs among them, is
    as it was. *)
Theorem main_writes_only w p :
  p ∉ [abspath w "cardiotocographic-predictor.h5";
       abspath w "Epoch-Loss Graph.jpg";
       abspath w "Epoch-Categorical Accuracy Graph.jpg";
       abspath w "cardiotocographic.pickle"] →
  fs (world_of (main w)) !! p = fs w !! p.
Proof.
  intros Hp.
  assert (abspath w "cardiotocographic-predictor.h5" ≠ p) as H1.
  { intros <-. apply Hp. repeat constructor. }
  assert (abspath w "Epoch-Loss Graph.jpg" ≠ p) as H2.
  { intros <-. apply Hp. repeat constructor. }
  assert (abspath w "Epoch-Categorical Accuracy Graph.jpg" ≠ p) as H3.
  { intros <-. apply Hp. repeat constructor. }
  assert (abspath w "cardiotocographic.pickle" ≠ p) as H4.
  { intros <-. apply Hp. repeat constructor. }
  clear Hp. unfold abspath in *.
  change (post main w (λ _ w' _, fs w' !! p = fs w !! p)).
  run.
  all: world_fields.
  all: rewrite ?lookup_insert_ne by assumption.
  all: reflexivity.
Qed.

(** With one value per prediction the loop of the diabetes script runs to
    its end. *)
Lemma print_diagnoses_total (predictions : matrix) w :
  Forall (λ row, length row = 1) predictions →
  post (for_each predictions (λ prediction : list scalar,
          diabetic ← truth ((λ p, float_gt p (float (Q2Qc (5 # 10)))) <$> prediction);
          print (if diabetic : bool then "Person have got diabetes..."
                 else "Person is healthy..."))) w
    (λ r w1 evs,
       r = Ok () ∧ (∃ out, w1 = set_stdout out w)
       ∧ Forall (λ ev : event, ev.2 = Returned) evs).
Proof.
  intros Hrows.
  apply (post_for_each _ _ _ (λ w1 evs,
    (∃ out, w1 = set_stdout out w) ∧ Forall (λ ev : event, ev.2 = Returned) evs)).
  - split; [eexists; apply set_stdout_id|constructor].
  - intros row w0 evs0 Hrow ((out & ->) & Hevs).
    rewrite Forall_forall in Hrows. specialize (Hrows row Hrow).
    destruct row as [|p [|? ?]]; try discriminate Hrows.
    wp.
    + split; [by eexists|].
      rewrite !Forall_app, !Forall_singleton. done.
    + match goal with H : _ = Raise _ |- _ => discriminate H end.
  - intros w1 evs (Hw & Hevs). done.
Qed.

(** X14. In the diabetes script the truth test of [prediction > .5]
    raises in no run, given that a Keras prediction has one value per unit
    of the last layer: the output layer has one unit. *)
Theorem keras_predictor_truth :
  predict_contract →
  ∀ w, Forall (λ ev : event, ev.1 = call_truth → ev.2 = Returned)
         (calls_of (keras_predictor w)).
Proof.
  intros Hpredict w.
  change (post keras_predictor w (λ _ _ evs,
    Forall (λ ev : event, ev.1 = call_truth → ev.2 = Returned) evs)).
  repeat wp_step.
  all: try match goal with
           | HP : keras_predict _ _ = Ok ?P |- post (for_each ?P _) _ _ =>
               apply Hpredict in HP; simpl in HP;
               eapply post_mono;
               [ apply print_diagnoses_total;
                 eapply Forall_impl; [exact HP|];
                 by intros row [= ->]
               | intros ? ? ? (-> & _ & Hret); cbv beta iota ]
           end.
  all: simpl.
  all: repeat first
         [ apply Forall_nil_2
         | apply Forall_cons_2; [by intros [=]|]
         | eapply Forall_impl; [exact Hret|]; by intros ev Hev _ ].
Qed.

End Inputs.
(** ** Data sets that cannot be split, columns that are not there *)

Section Unusable.
Context `{B : Backend}.

(** [train_test_split] refuses a data set that the test rows exhaust. *)
Lemma train_test_split_small {A} (data : DataFrame A) test_size w :
  length (rows data) ≤ ceil_mul test_size (length (rows data)) →
  train_test_split data test_size None w
  = (Raise (Exn "ValueError" "the resulting train set will be empty"), w,
     [(call_train_test_split,
       Raised (Exn "ValueError" "the resulting train set will be empty"))]).
Proof.
  intros Hsmall. unfold train_test_split, invoke. cbv zeta.
  rewrite decide_True by lia. reflexivity.
Qed.

Lemma column_position_None cols c : c ∉ cols → column_position cols c = None.
Proof.
  induction cols as [|c' cols IH]; [done|].
  intros Hc. apply not_elem_of_cons in Hc as [Hne Hc]. simpl.
  rewrite decide_False by done. by rewrite IH.
Qed.

(** [loc] raises [KeyError] when a name asked for is not a column. *)
Lemma loc_columns_missing {A} (d : DataFrame A) cols c :
  c ∈ cols → c ∉ columns d →
  loc_columns d cols = Raise (Exn "KeyError" "not in index").
Proof.
  intros Hc Hmissing. unfold loc_columns.
  destruct (mapM _ _) as [ps|] eqn:Hps; [|done].
  assert (is_Some (mapM (column_position (columns d)) cols)) as Hsome by eauto.
  apply mapM_is_Some in Hsome. rewrite Forall_forall in Hsome.
  destruct (Hsome c Hc) as [p Hp]. simpl in Hp.
  by rewrite column_position_None in Hp.
Qed.

Lemma CTG_dataset_Raise w e :
  result_of (read_excel "CTG.xls" "Raw Data" usecols_G_AN w) = Raise e →
  result_of (CTG_dataset w) = Raise e.
Proof.
  intros Hd. unfold CTG_dataset, mbind, M_bind, bind. by rewrite Hd.
Qed.

Lemma CTG_dataset_loc_Raise w d e :
  result_of (read_excel "CTG.xls" "Raw Data" usecols_G_AN w) = Ok d →
  loc_columns (dropna d) CTG_columns = Raise e →
  result_of (CTG_dataset w) = Raise e.
Proof.
  intros Hd Hdata. unfold CTG_dataset, mbind, M_bind, bind.
  rewrite Hd. unfold df_dropna, df_loc, pure_call, invoke.
  cbn [result_of world_of calls_of fst snd]. exact Hdata.
Qed.

(** As far as the split. *)
Ltac wp_to_split :=
  repeat lazymatch goal with
         | |- post (train_test_split _ _ _) _ _ => fail
         | |- _ => wp_step
         end.

(** X15. On a data set that the test rows would exhaust, an empty one
    among them, the cardiotocographic script stops at the split with
    [ValueError]; nothing has changed. *)
Theorem main_small_data w data :
  result_of (CTG_dataset w) = Ok data →
  length (rows data) ≤ ceil_mul (float (Q2Qc (2 # 10))) (length (rows data)) →
  main w
  = (Raise (Exn "ValueError" "the resulting train set will be empty"), w,
     [(call_read_excel "CTG.xls" "Raw Data", Returned);
      (call_dropna, Returned);
      (call_loc, Returned);
      (call_train_test_split,
       Raised (Exn "ValueError" "the resulting train set will be empty"))]).
Proof.
  intros Hdata Hsmall. etrans; [apply run_eq|].
  change (post main w (λ r w' evs,
    (r, w', evs)
    = (Raise (Exn "ValueError" "the resulting train set will be empty"), w,
       [(call_read_excel "CTG.xls" "Raw Data", Returned);
        (call_dropna, Returned);
        (call_loc, Returned);
        (call_train_test_split,
         Raised (Exn "ValueError" "the resulting train set will be empty"))]))).
  wp_to_split.
  - match goal with
    | Hread : _ = Ok ?d, Hdrop : dropna ?d = ?d',
      Hloc : loc_columns ?d' CTG_columns = Ok ?data' |- _ =>
        subst d';
        destruct (CTG_dataset_Ok w d data' Hread Hloc) as [Hdata' _];
        assert (data' = data) as -> by congruence
    end.
    unfold post. rewrite train_test_split_small by done.
    cbn [result_of world_of calls_of fst snd app]. by destruct w.
  - match goal with
    | Hread : _ = Ok ?d, Hdrop : dropna ?d = ?d',
      Hloc : loc_columns ?d' CTG_columns = Raise _ |- _ =>
        subst d';
        pose proof (CTG_dataset_loc_Raise w d _ Hread Hloc); congruence
    end.
  - match goal with
    | Hread : _ = Raise _ |- _ =>
        pose proof (CTG_dataset_Raise w _ Hread); congruence
    end.
Qed.

(** X16. On a data set that the test rows would exhaust, an empty one
    among them, the diabetes script stops at the split with [ValueError];
    nothing has changed. *)
Theorem keras_predictor_small_data w data :
  result_of (diabetes_dataset w) = Ok data →
  length (rows data)
  ≤ ceil_mul (float_sub (float 1) DIVIDE_RATIO) (length (rows data)) →
  keras_predictor w
  = (Raise (Exn "ValueError" "the resulting train set will be empty"), w,
     [(call_getcwd, Returned);
      (call_read_csv
         (path_join (cwd w) "02-keras-2L-diabetes-predict/diabetes.csv"),
       Returned);
      (call_train_test_split,
       Raised (Exn "ValueError" "the resulting train set will be empty"))]).
Proof.
  intros Hdata Hsmall. etrans; [apply run_eq|].
  change (post keras_predictor w (λ r w' evs,
    (r, w', evs)
    = (Raise (Exn "ValueError" "the resulting train set will be empty"), w,
       [(call_getcwd, Returned);
        (call_read_csv
           (path_join (cwd w) "02-keras-2L-diabetes-predict/diabetes.csv"),
         Returned);
        (call_train_test_split,
         Raised (Exn "ValueError" "the resulting train set will be empty"))]))).
  wp_to_split.
  - match goal with
    | Hread : _ = Ok ?data' |- _ =>
        assert (data' = data) as ->
          by (change (result_of (diabetes_dataset w) = Ok data') in Hread;
              congruence)
    end.
    unfold post. rewrite train_test_split_small by done.
    cbn [result_of world_of calls_of fst snd app]. by destruct w.
  - match goal with
    | Hread : _ = Raise ?e |- _ =>
        change (result_of (diabetes_dataset w) = Raise e) in Hread; congruence
    end.
Qed.

(** X17. When the columns G to AN of the sheet lack one of the 22
    columns that [main] selects, the run stops at [loc] with [KeyError],
    after [read_excel] and [dropna]; nothing has changed. *)
Theorem main_missing_column w d c :
  result_of (read_excel "CTG.xls" "Raw Data" usecols_G_AN w) = Ok d →
  c ∈ CTG_columns → c ∉ columns d →
  main w
  = (Raise (Exn "KeyError" "not in index"), w,
     [(call_read_excel "CTG.xls" "Raw Data", Returned);
      (call_dropna, Returned);
      (call_loc, Raised (Exn "KeyError" "not in index"))]).
Proof.
  intros Hd Hc Hmissing. etrans; [apply run_eq|].
  assert (loc_columns (dropna d) CTG_columns
          = Raise (Exn "KeyError" "not in index")) as Hloc.
  { by apply (loc_columns_missing _ _ c). }
  change (post main w (λ r w' evs,
    (r, w', evs)
    = (Raise (Exn "KeyError" "not in index"), w,
       [(call_read_excel "CTG.xls" "Raw Data", Returned);
        (call_dropna, Returned);
        (call_loc, Raised (Exn "KeyError" "not in index"))]))).
  wp_to_split.
  - match goal with
    | Hread : _ = Ok ?d0, Hdrop : dropna ?d0 = ?d',
      Hloc' : loc_columns ?d' CTG_columns = Ok _ |- _ =>
        change (result_of (read_excel "CTG.xls" "Raw Data" usecols_G_AN w)
                = Ok d0) in Hread;
        assert (d0 = d) as -> by congruence; subst d'; congruence
    end.
  - match goal with
    | Hread : _ = Ok ?d0, Hdrop : dropna ?d0 = ?d',
      Hloc' : loc_columns ?d' CTG_columns = Raise ?e |- _ =>
        change (result_of (read_excel "CTG.xls" "Raw Data" usecols_G_AN w)
                = Ok d0) in Hread;
        assert (d0 = d) as -> by congruence; subst d';
        assert (e = Exn "KeyError" "not in index") as -> by congruence
    end.
    by destruct w.
  - match goal with
    | Hread : _ = Raise ?e |- _ =>
        change (result_of (read_excel "CTG.xls" "Raw Data" usecols_G_AN w)
                = Raise e) in Hread; congruence
    end.
Qed.

End Unusable.
(** ** What a complete run of the cardiotocographic script leaves *)

Section Outputs.
Context `{B : Backend}.

(** X18. A complete run of the cardiotocographic script leaves the two
    graphs of the history of [fit], the loss and the accuracy, each with
    its validation curve, in two files at 300 dpi; the second call of
    [plot_metric_graph] does not touch the file of the first. *)
Theorem main_graphs w :
  result_of (main w) = Ok () →
  ∃ hist loss val_loss accuracy val_accuracy,
    history hist !! "loss" = Some loss
    ∧ history hist !! "val_loss" = Some val_loss
    ∧ history hist !! "categorical_accuracy" = Some accuracy
    ∧ history hist !! "val_categorical_accuracy" = Some val_accuracy
    ∧ fs (world_of (main w)) !! abspath w "Epoch-Loss Graph.jpg"
      = Some (JpegFile 300 "tight" (metric_figure (epoch hist) loss val_loss "loss"))
    ∧ fs (world_of (main w)) !! abspath w "Epoch-Categorical Accuracy Graph.jpg"
      = Some (JpegFile 300 "tight"
                (metric_figure (epoch hist) accuracy val_accuracy
                   "categorical_accuracy")).
Proof.
  apply (post_complete main w (λ w' _,
    ∃ hist loss val_loss accuracy val_accuracy,
      history hist !! "loss" = Some loss
      ∧ history hist !! "val_loss" = Some val_loss
      ∧ history hist !! "categorical_accuracy" = Some accuracy
      ∧ history hist !! "val_categorical_accuracy" = Some val_accuracy
      ∧ fs w' !! abspath w "Epoch-Loss Graph.jpg"
        = Some (JpegFile 300 "tight" (metric_figure (epoch hist) loss val_loss "loss"))
      ∧ fs w' !! abspath w "Epoch-Categorical Accuracy Graph.jpg"
        = Some (JpegFile 300 "tight"
                  (metric_figure (epoch hist) accuracy val_accuracy
                     "categorical_accuracy")))).
  run.
  all: try (intros ?; discriminate).
  intros _.
  repeat match goal with
         | H : match _ !! _ with Some _ => _ | None => _ end = Ok _ |- _ =>
             apply dict_lookup_Ok in H
         end.
  eexists _, _, _, _, _.
  split; [eassumption|]. split; [eassumption|].
  split; [eassumption|]. split; [eassumption|].
  split; [world_fields; simpl String.app; lookup_fs|].
  world_fields; simpl String.app; lookup_fs.
Qed.

(** X19. In a complete run of the cardiotocographic script three models
    are handed to Keras: the untrained model to [fit], and twice, to
    [evaluate] and to [predict], that model with the weights that [fit]
    gave; the latter is the model in the saved file. *)
Theorem main_saved_model w :
  result_of (main w) = Ok () →
  ∃ m0 X Y g wts hist g',
    keras_fit m0 X Y 5 None (float (Q2Qc (2 # 10))) g = Ok (wts, hist, g')
    ∧ trained m0 = None
    ∧ models_of (calls_of (main w))
      = [m0;
         mkSequential (model_name m0) (layers m0) (compiled m0) (Some wts);
         mkSequential (model_name m0) (layers m0) (compiled m0) (Some wts)]
    ∧ fs (world_of (main w)) !! abspath w "cardiotocographic-predictor.h5"
      = Some (H5File (mkSequential (model_name m0) (layers m0) (compiled m0)
                        (Some wts))).
Proof.
  apply (post_complete main w (λ w' evs,
    ∃ m0 X Y g wts hist g',
      keras_fit m0 X Y 5 None (float (Q2Qc (2 # 10))) g = Ok (wts, hist, g')
      ∧ trained m0 = None
      ∧ models_of evs
        = [m0;
           mkSequential (model_name m0) (layers m0) (compiled m0) (Some wts);
           mkSequential (model_name m0) (layers m0) (compiled m0) (Some wts)]
      ∧ fs w' !! abspath w "cardiotocographic-predictor.h5"
        = Some (H5File (mkSequential (model_name m0) (layers m0) (compiled m0)
                          (Some wts))))).
  run.
  all: try (intros ?; discriminate).
  intros _.
  match goal with
  | Hfit : keras_fit ?m0 ?X ?Y _ _ _ ?g = Ok (?wts, ?hist, ?g') |- _ =>
      exists m0, X, Y, g, wts, hist, g'; split; [exact Hfit|]
  end.
  split; [reflexivity|]. split.
  - unfold models_of. project_log. reflexivity.
  - world_fields. simpl String.app. cbn [model_name layers compiled]. lookup_fs.
Qed.

End Outputs.
(** ** The diabetes script reads the file to predict last *)

Section Late.
Context `{B : Backend}.

(** An event of a list of calls that are not the reading of [path]. *)
Ltac not_this_read Hin :=
  repeat (apply elem_of_cons in Hin as [Hin|Hin];
          [ first [ discriminate Hin
                  | injection Hin as Hin _;
                    apply path_join_relative_inj in Hin;
                    [discriminate Hin|reflexivity|reflexivity] ]
          |]);
  try (by apply elem_of_nil in Hin).

(** X20. The diabetes script reads the file to predict after training.
    Without this file it does not complete and predicts nothing; a run that
    gets as far as reading it has fitted the model and printed the
    accuracy, and ends there with [FileNotFoundError]. *)
Theorem keras_predictor_missing_predicted w :
  fs w !! abspath w (path_join (cwd w)
                       "02-keras-2L-diabetes-predict/predicted.csv") = None →
  result_of (keras_predictor w) ≠ Ok ()
  ∧ Forall (λ ev : event, phase_of ev.1 ≠ Predict) (calls_of (keras_predictor w))
  ∧ ∀ o,
      (call_read_csv
         (path_join (cwd w) "02-keras-2L-diabetes-predict/predicted.csv"), o)
      ∈ calls_of (keras_predictor w) →
      o = Raised (Exn "FileNotFoundError"
                    (path_join (cwd w)
                       "02-keras-2L-diabetes-predict/predicted.csv"))
      ∧ ∃ m X Y acc,
          (call_fit m X Y, Returned) ∈ calls_of (keras_predictor w)
          ∧ (call_print ("Test accuracy: " +:+ float_repr acc), Returned)
            ∈ calls_of (keras_predictor w).
Proof.
  intros Hmissing. unfold abspath in Hmissing.
  change (post keras_predictor w (λ r _ evs,
    r ≠ Ok ()
    ∧ Forall (λ ev : event, phase_of ev.1 ≠ Predict) evs
    ∧ ∀ o,
        (call_read_csv
           (path_join (cwd w) "02-keras-2L-diabetes-predict/predicted.csv"), o)
        ∈ evs →
        o = Raised (Exn "FileNotFoundError"
                      (path_join (cwd w)
                         "02-keras-2L-diabetes-predict/predicted.csv"))
        ∧ ∃ m X Y acc,
            (call_fit m X Y, Returned) ∈ evs
            ∧ (call_print ("Test accuracy: " +:+ float_repr acc), Returned)
              ∈ evs)).
  run_pruning ltac:(idtac; match goal with
                    | H : match fs w !! path_join (cwd w)
                                  (path_join (cwd w)
                                     "02-keras-2L-diabetes-predict/predicted.csv")
                          with Some _ => _ | None => _ end = Ok _ |- _ =>
                        rewrite Hmissing in H; discriminate H
                    end).
  all: split; [done|].
  all: split; [simpl; repeat constructor; done|].
  all: intros o Hin; simpl in Hin.
  all: try (exfalso; not_this_read Hin; fail).
  match goal with
  | H : _ = Raise _ |- _ => rewrite Hmissing in H; apply Raise_eq in H; subst
  end.
  not_this_read Hin.
  apply list_elem_of_singleton in Hin.
  split; [congruence|].
  eexists _, _, _, _. split; find_event.
Qed.

End Late.

(** ** These properties on the small inputs *)

Lemma plot_metric_graph_returns_witness :
  ∃ training validation,
    history (toy_history 5 []) !! "loss" = Some training
    ∧ history (toy_history 5 []) !! ("val_" +:+ "loss") = Some validation
    ∧ length training = length (epoch (toy_history 5 []))
    ∧ length validation = length (epoch (toy_history 5 [])).
Proof.
  apply (plot_metric_graph_returns (B:=toy) (toy_history 5 []) "loss"
           "Epoch-Loss Graph" toy_world_empty).
  vm_compute. reflexivity.
Defined.

Lemma plot_metric_graph_saves_witness :
  fs (world_of (plot_metric_graph (B:=toy) (toy_history 5 []) "loss"
                  "Epoch-Loss Graph" toy_world_empty))
  = <[abspath toy_world_empty ("Epoch-Loss Graph" +:+ ".jpg") :=
        JpegFile 300 "tight"
          (metric_figure (B:=toy) (epoch (toy_history 5 []))
             (replicate 5 0%Qc) (replicate 5 0%Qc) "loss")]>
      (fs toy_world_empty).
Proof.
  apply (plot_metric_graph_saves (B:=toy) (toy_history 5 []) "loss"
           "Epoch-Loss Graph" (replicate 5 0%Qc) (replicate 5 0%Qc)
           toy_world_empty).
  all: vm_compute; reflexivity.
Defined.

Lemma plot_metric_graph_missing_witness :
  plot_metric_graph (B:=toy) (toy_history 5 []) "accuracy" "Accuracy"
    toy_world_empty
  = (Raise (Exn "KeyError" "accuracy"),
     set_figures [mkFigure (Some (15, 5)) []] toy_world_empty,
     [(call_plt "figure", Returned);
      (call_getitem (inr "accuracy"), Raised (Exn "KeyError" "accuracy"))]).
Proof.
  apply (plot_metric_graph_missing (B:=toy) (toy_history 5 []) "accuracy"
           "Accuracy" toy_world_empty).
  vm_compute. reflexivity.
Defined.

Lemma plot_metric_graph_failure_witness :
  fs (world_of (plot_metric_graph (B:=toy) (toy_history 5 []) "accuracy"
                  "Accuracy" toy_world_empty)) = ∅
  ∧ screen (world_of (plot_metric_graph (B:=toy) (toy_history 5 []) "accuracy"
                        "Accuracy" toy_world_empty)) = [].
Proof.
  destruct (plot_metric_graph_failure (B:=toy) (toy_history 5 []) "accuracy"
              "Accuracy" toy_world_empty (Exn "KeyError" "accuracy"))
    as (Hfs & Hscreen & _).
  { vm_compute. reflexivity. }
  split; assumption.
Defined.

Lemma train_evaluate_save_model_returns_witness :
  ∃ m0 wts g,
    result_of (create_cardiotocographic_model (B:=toy) 1 3
                 (Some "cardiotocographic-predictor") toy_world_empty) = Ok m0
    ∧ keras_fit m0 [[1%Qc]] [[1%Qc]] 5 None (float (Q2Qc (2 # 10))) 0
      = Ok (wts, toy_history 5 ["categorical_accuracy"], g)
    ∧ fs (world_of (train_evaluate_save_model (B:=toy) [[1%Qc]] [[1%Qc]]
                      [[1%Qc]] [[1%Qc]] [[1%Qc]] 3 "model" 5 toy_world_empty))
      = <["/home/user/model.h5" :=
            H5File (mkSequential (model_name m0) (layers m0) (compiled m0)
                      (Some wts))]> ∅.
Proof.
  destruct (train_evaluate_save_model_returns (B:=toy) [[1%Qc]] [[1%Qc]]
              [[1%Qc]] [[1%Qc]] [[1%Qc]] 3 "model" 5 toy_world_empty
              (toy_history 5 ["categorical_accuracy"]) (Q2Qc (1 # 2))
              (Q2Qc (3 # 4)) [replicate 3 (Q2Qc (1 # 3))])
    as (m0 & wts & g & Hm0 & Hfit & _ & _ & Hfs).
  { vm_compute. reflexivity. }
  exists m0, wts, g. split; [exact Hm0|]. split; [exact Hfit|]. exact Hfs.
Defined.

Lemma train_evaluate_save_model_failure_witness :
  fs (world_of (train_evaluate_save_model (B:=toy_single_score) [[1%Qc]]
                  [[1%Qc]] [[1%Qc]] [[1%Qc]] [[1%Qc]] 3 "model" 5
                  (@mkWorld toy_single_score [] "/home/user" ∅ 0 [] [] [])))
  = ∅.
Proof.
  destruct (train_evaluate_save_model_failure (B:=toy_single_score) [[1%Qc]]
              [[1%Qc]] [[1%Qc]] [[1%Qc]] [[1%Qc]] 3 "model" 5
              (@mkWorld toy_single_score [] "/home/user" ∅ 0 [] [] [])
              (Exn "ValueError" "wrong number of values to unpack"))
    as [Hfs _].
  { vm_compute. reflexivity. }
  exact Hfs.
Defined.

Lemma keras_predictor_prints_witness :
  ∃ acc lines,
    printed (calls_of (keras_predictor (toy_world_diabetes 0 [])))
    = ("Test accuracy: " +:+ @float_repr toy acc) :: lines.
Proof.
  destruct (keras_predictor_prints (B:=toy) (toy_world_diabetes 0 []))
    as (m & X & Y & scores & acc & X' & predictions & lines
        & _ & _ & _ & _ & Hout).
  { vm_compute. reflexivity. }
  exists acc, lines. exact Hout.
Defined.

Lemma main_prints_witness :
  ∃ loss acc lines,
    printed (calls_of (main (toy_world_ctg 0 [])))
    = ["################################";
       "Model Evaluation Metrics:";
       "loss: " +:+ @float_repr toy loss +:+ newline
       +:+ "categorical_accuracy: " +:+ @float_repr toy acc;
       "################################"] ++ lines.
Proof.
  destruct (main_prints (B:=toy) (toy_world_ctg 0 []))
    as (m & X & Y & loss & acc & X' & predictions & predicted & lines
        & _ & _ & _ & _ & Hout).
  { vm_compute. reflexivity. }
  exists loss, acc, lines. exact Hout.
Defined.

Lemma main_missing_data_witness :
  main toy_world_empty
  = (Raise (Exn "FileNotFoundError" "CTG.xls"), toy_world_empty,
     [(call_read_excel "CTG.xls" "Raw Data",
       Raised (Exn "FileNotFoundError" "CTG.xls"))]).
Proof. apply (main_missing_data (B:=toy)). reflexivity. Defined.

Lemma keras_predictor_missing_data_witness :
  result_of (keras_predictor toy_world_empty)
  = Raise (Exn "FileNotFoundError"
             "/home/user/02-keras-2L-diabetes-predict/diabetes.csv").
Proof.
  rewrite (keras_predictor_missing_data (B:=toy) toy_world_empty)
    by reflexivity.
  reflexivity.
Defined.

Lemma main_missing_predicted_witness :
  fs (world_of (main (toy_world_sheet (toy_sheet 10))))
  = fs (toy_world_sheet (toy_sheet 10))
  ∧ models_of (calls_of (main (toy_world_sheet (toy_sheet 10)))) = [].
Proof.
  destruct (main_missing_predicted (B:=toy) (toy_world_sheet (toy_sheet 10)))
    as (_ & Hfs & _ & Hmodels).
  { vm_compute. reflexivity. }
  split; assumption.
Defined.

Lemma main_writes_only_witness :
  fs (world_of (main (toy_world_ctg 0 []))) !! "/home/user/CTG.xls"
  = fs (toy_world_ctg 0 []) !! "/home/user/CTG.xls".
Proof.
  apply (main_writes_only (B:=toy)).
  rewrite !elem_of_cons, elem_of_nil.
  intros [H|[H|[H|[H|[]]]]]; vm_compute in H; discriminate H.
Defined.

Lemma keras_predictor_truth_witness :
  Forall (λ ev : event, ev.1 = call_truth → ev.2 = Returned)
    (calls_of (keras_predictor (toy_world_diabetes 0 []))).
Proof. exact (keras_predictor_truth toy_predict_contract _). Defined.

Lemma main_small_data_witness :
  main (toy_world_sheet (toy_sheet 0))
  = (Raise (Exn "ValueError" "the resulting train set will be empty"),
     toy_world_sheet (toy_sheet 0),
     [(call_read_excel "CTG.xls" "Raw Data", Returned);
      (call_dropna, Returned);
      (call_loc, Returned);
      (call_train_test_split,
       Raised (Exn "ValueError" "the resulting train set will be empty"))]).
Proof.
  apply (main_small_data (B:=toy) _ (mkFrame CTG_columns [])).
  - vm_compute. reflexivity.
  - apply Nat.le_0_l.
Defined.

Lemma keras_predictor_small_data_witness :
  result_of (keras_predictor (toy_world_csv 0))
  = Raise (Exn "ValueError" "the resulting train set will be empty").
Proof.
  rewrite (keras_predictor_small_data (B:=toy) (toy_world_csv 0)
             (mkFrame toy_diabetes_header [])).
  - reflexivity.
  - vm_compute. reflexivity.
  - apply Nat.le_0_l.
Defined.

Lemma main_missing_column_witness :
  main (toy_world_sheet toy_sheet_renamed)
  = (Raise (Exn "KeyError" "not in index"), toy_world_sheet toy_sheet_renamed,
     [(call_read_excel "CTG.xls" "Raw Data", Returned);
      (call_dropna, Returned);
      (call_loc, Raised (Exn "KeyError" "not in index"))]).
Proof.
  apply (main_missing_column (B:=toy) _
           (mkFrame (select_positions usecols_G_AN toy_sheet_renamed.1) [])
           "NSP").
  - vm_compute. reflexivity.
  - repeat constructor.
  - intros Hin. vm_compute in Hin.
    repeat (apply elem_of_cons in Hin as [Hin|Hin]; [discriminate Hin|]).
    by apply elem_of_nil in Hin.
Defined.

Lemma main_graphs_witness :
  ∃ fig fig',
    fs (world_of (main (toy_world_ctg 0 [])))
      !! abspath (toy_world_ctg 0 []) "Epoch-Loss Graph.jpg"
    = Some (JpegFile 300 "tight" fig)
    ∧ fs (world_of (main (toy_world_ctg 0 [])))
        !! abspath (toy_world_ctg 0 []) "Epoch-Categorical Accuracy Graph.jpg"
      = Some (JpegFile 300 "tight" fig').
Proof.
  destruct (main_graphs (B:=toy) (toy_world_ctg 0 []))
    as (hist & loss & val_loss & accuracy & val_accuracy
        & _ & _ & _ & _ & Hfile & Hfile').
  { vm_compute. reflexivity. }
  eexists _, _. split; [exact Hfile|exact Hfile'].
Defined.

Lemma main_saved_model_witness :
  ∃ m0 wts,
    models_of (calls_of (main (toy_world_ctg 0 [])))
    = [m0;
       mkSequential (model_name m0) (layers m0) (compiled m0) (Some wts);
       mkSequential (model_name m0) (layers m0) (compiled m0) (Some wts)]
    ∧ fs (world_of (main (toy_world_ctg 0 [])))
        !! "/home/user/cardiotocographic-predictor.h5"
      = Some (H5File (mkSequential (model_name m0) (layers m0) (compiled m0)
                        (Some wts))).
Proof.
  destruct (main_saved_model (B:=toy) (toy_world_ctg 0 []))
    as (m0 & X & Y & g & wts & hist & g' & _ & _ & Hmodels & Hfile).
  { vm_compute. reflexivity. }
  exists m0, wts. split; [exact Hmodels|exact Hfile].
Defined.

Lemma keras_predictor_missing_predicted_witness :
  Forall (λ ev : event, phase_of ev.1 ≠ Predict)
    (calls_of (keras_predictor (toy_world_csv 10))).
Proof.
  destruct (keras_predictor_missing_predicted (B:=toy) (toy_world_csv 10))
    as (_ & Hnone & _).
  { vm_compute. reflexivity. }
  exact Hnone.
Defined.
